(** * talm: template helpers, [template] command and [init] command

    A shallow embedding of
    - the named templates of the library chart
      ([talm/templates/_helpers.tpl], embedded in [generated.PresetFiles]),
    - the [template] command ([pkg/commands/template.go]),
    - the [init] command (its file-writing part),
    and the properties of them that the specification states.

    Go strings are byte sequences: they are modelled as [string], whose
    characters are the bytes.  The Go standard library, sprig and the talm
    engine are not part of the embedded sources; what is used of them is
    either modelled (and said so) or taken as a section variable. *)

From Stdlib Require Import ZArith QArith Lia List Bool Ascii String.
From Stdlib Require Import Numbers.DecimalString.
From stdpp Require Import base option list strings gmap.

Import ListNotations.
Local Open Scope Z_scope.

(** ** Library functions of Go and sprig used by the sources *)

Module GoLib.

(** sprig [divf]: floating-point quotient.  The divisors used by the
    sources are powers of two, so the quotient of an integer below 2^53
    in absolute value is exact in binary64; it is kept as a rational. *)
Definition divf (a : Z) (b : positive) : Q := a # b.

(** Nearest integer to [n / d] for [0 <= n], ties to even: the rounding
    of Go's [strconv] when it prints a binary64 with a fixed number of
    decimals. *)
Definition round_half_even (n : Z) (d : positive) : Z :=
  let q := n / Z.pos d in
  let r := n mod Z.pos d in
  if 2 * r <? Z.pos d then q
  else if Z.pos d <? 2 * r then q + 1
  else if Z.even q then q else q + 1.

Definition decimal (n : Z) : string :=
  NilZero.string_of_uint (N.to_uint (Z.to_N n)).

Definition digit (n : Z) : ascii :=
  ascii_of_N (48 + Z.to_N n).

(** Go [fmt]: the verb [%.2f]. A negative value keeps its sign even
    when it rounds to zero. *)
Definition printf_2f (x : Q) : string :=
  let h := round_half_even (Z.abs (Qnum x) * 100) (Qden x) in
  (if Qnum x <? 0 then "-" else "")
    +:+ decimal (h / 100) +:+ "."
    +:+ String (digit (h mod 100 / 10)) (String (digit (h mod 10)) "").

(** sprig [hasPrefix]: [strings.HasPrefix] with the prefix first. *)
Definition hasPrefix (p s : string) : bool := String.prefix p s.

(** sprig [replace old "" s] for a one-byte [old]: every occurrence of
    the byte is removed. *)
Fixpoint remove_byte (c : ascii) (s : string) : string :=
  match s with
  | EmptyString => EmptyString
  | String a s' =>
      if Ascii.eqb a c then remove_byte c s' else String a (remove_byte c s')
  end.

End GoLib.

(** ** Errors and results

    A Go function returning [(T, error)] is a [result T]; a function
    returning [error] alone returns [option error], [None] for [nil]. *)

Inductive error :=
| ConnectivityError                        (* the node cannot be reached *)
| TemplateExecutionError
| LibraryError (msg : string)              (* of a library or of the system *)
| AlreadyExists (file : string)            (* file %q already exists, use --force to overwrite *)
| Errorf (msg : string) (cause : error).   (* fmt.Errorf("msg: %w", cause) *)

Inductive result (A : Type) : Type :=
| Ok (a : A)
| Err (e : error).
Arguments Ok {A} a.
Arguments Err {A} e.

Definition bind {A B} (m : result A) (k : A -> result B) : result B :=
  match m with
  | Ok a => k a
  | Err e => Err e
  end.

Notation "x <- m ;; k" := (bind m (fun x => k))
  (at level 100, m at next level, right associativity).

(** ** Go's [encoding/json] on strings and string slices

    [json.Marshal] quotes a string byte by byte (HTML escaping on): the
    printable ASCII bytes stand for themselves except the double quote,
    the backslash and the three HTML bytes; control bytes are escaped; a
    valid UTF-8 sequence is copied, but U+2028 and U+2029 are escaped; a
    byte that starts no valid sequence becomes the escape of U+FFFD. *)

Module GoJson.

Definition byte (c : ascii) : N := N_of_ascii c.

Definition hex (n : N) : ascii :=
  if (n <? 10)%N then ascii_of_N (48 + n) else ascii_of_N (87 + n).

Definition is_Some_b {A} (o : option A) : bool :=
  match o with Some _ => true | None => false end.

Definition continuation (lo hi : N) (c : ascii) : bool :=
  ((lo <=? byte c) && (byte c <=? hi))%N.

(** [utf8.DecodeRuneInString]: the width of the valid encoding that
    starts the string, [0] when there is none ([RuneError] of width 1).
    Only called on a first byte of 0x80 or more. *)
Definition rune_width (s : string) : nat :=
  match s with
  | EmptyString => 0
  | String c0 s1 =>
      let b0 := byte c0 in
      let second lo hi :=
        match s1 with
        | String c1 s2 => if continuation lo hi c1 then Some s2 else None
        | EmptyString => None
        end in
      let third lo hi :=
        match second lo hi with
        | Some (String c2 s3) =>
            if continuation 128 191 c2 then Some s3 else None
        | _ => None
        end in
      let fourth lo hi :=
        match third lo hi with
        | Some (String c3 _) => continuation 128 191 c3
        | _ => false
        end in
      let w2 lo hi := if is_Some_b (second lo hi) then 2%nat else 0%nat in
      let w3 lo hi := if is_Some_b (third lo hi) then 3%nat else 0%nat in
      let w4 lo hi := if fourth lo hi then 4%nat else 0%nat in
      if (b0 <? 194)%N then 0%nat
      else if (b0 <? 224)%N then w2 128%N 191%N
      else if (b0 =? 224)%N then w3 160%N 191%N
      else if (b0 =? 237)%N then w3 128%N 159%N
      else if (b0 <? 240)%N then w3 128%N 191%N
      else if (b0 =? 240)%N then w4 144%N 191%N
      else if (b0 <? 244)%N then w4 128%N 191%N
      else if (b0 =? 244)%N then w4 128%N 143%N
      else 0%nat
  end.

(** U+2028 and U+2029 are E2 80 A8 and E2 80 A9. *)
Definition line_separator (s : string) : option ascii :=
  match s with
  | String c0 (String c1 (String c2 _)) =>
      if ((byte c0 =? 226) && (byte c1 =? 128)
          && ((byte c2 =? 168) || (byte c2 =? 169)))%N
      then Some (hex (byte c2 mod 16)) else None
  | _ => None
  end.

(** The escape of one ASCII byte. *)
Definition escape_ascii (c : ascii) : string :=
  let b := byte c in
  if ((b =? 34) || (b =? 92))%N then String "\" (String c "")
  else if (b =? 8)%N then "\b"
  else if (b =? 12)%N then "\f"
  else if (b =? 10)%N then "\n"
  else if (b =? 13)%N then "\r"
  else if (b =? 9)%N then "\t"
  else if ((b <? 32) || (b =? 60) || (b =? 62) || (b =? 38))%N then
    "\u00" +:+ String (hex (b / 16)) (String (hex (b mod 16)) "")
  else String c "".

(** What the scan does with the bytes that follow a multi-byte rune's
    first byte: copy them, or drop them (the rune was escaped). *)
Inductive pending := Copy (k : nat) | Drop (k : nat).

Fixpoint quote_from (p : pending) (s : string) : string :=
  match s with
  | EmptyString => EmptyString
  | String c s' =>
      match p with
      | Copy (S k) => String c (quote_from (Copy k) s')
      | Drop (S k) => quote_from (Drop k) s'
      | _ =>
          if (byte c <? 128)%N then escape_ascii c +:+ quote_from (Copy 0) s'
          else
            match rune_width s with
            | O => "\ufffd" +:+ quote_from (Copy 0) s'
            | S k =>
                match line_separator s with
                | Some h => "\u202" +:+ String h (quote_from (Drop k) s')
                | None => String c (quote_from (Copy k) s')
                end
            end
      end
  end.

Definition dquote : ascii := ascii_of_N 34.

Definition quote (s : string) : string :=
  String dquote (quote_from (Copy 0) s) +:+ String dquote "".

Fixpoint join (sep : string) (l : list string) : string :=
  match l with
  | [] => ""
  | [x] => x
  | x :: l' => x +:+ sep +:+ join sep l'
  end.

(** A JSON array of strings. *)
Definition array (l : list string) : string :=
  "[" +:+ join "," (map quote l) +:+ "]".

(** A Go [[]string]: [None] is the nil slice, which marshals to
    [null]. *)
Definition slice := option (list string).

Definition encode (v : slice) : string :=
  match v with
  | None => "null"
  | Some l => array l
  end.

(** [json.Marshal] of a [[]string]; it has no failing case. *)
Definition Marshal (v : slice) : result string := Ok (encode v).

End GoJson.

(** ** The named templates of [talm/templates/_helpers.tpl]

    A template renders to text.  All the actions of these templates trim
    the white space on their left ([{{-]), none trims on its right, so
    the text that reaches the output is exactly what follows a [}}] up to
    the last non-blank byte before the next [{{-]. A [range] is a left
    fold over the items that threads the template variables it assigns
    and the text written so far. *)

Module Route.
(** [.spec] of an item of [lookup "routes" "" ""]. *)
Record t := {
  dst : string;
  gateway : string;
  outLinkName : string;
  family : string
}.
End Route.

Module Address.
(** [.spec] of an item of [lookup "addresses" "" ""]. *)
Record t := {
  address : string;
  linkName : string;
  family : string;
  scope : string
}.
End Address.

Module Link.
(** An item of [lookup "links" "" ""]: [.metadata.id] and [.spec]. *)
Record t := {
  id : string;
  hardwareAddr : string;
  busPath : string;
  driver : string;
  vendor : string;
  product : string
}.
End Link.

Module Node.
(** The state of a node as the lookups see it. *)
Record t := {
  routes : list Route.t;
  addresses : list Address.t;
  links : list Link.t;
  hostname : option string;            (* hostname/hostname: .spec.hostname *)
  nodeaddress : option (list string);  (* nodeaddress/default: .spec.addresses *)
  resolvers : option (list string)     (* resolvers/resolvers: .spec.dnsServers *)
}.
End Node.

(** The template function [lookup kind namespace id], by the calls the
    templates make.  With an id it answers one resource or nothing (an
    empty map, false for [with]); without one, the items of the kind.
    Any call may fail, which aborts the render. *)
Record Provider := {
  lookup_routes : result (list Route.t);
  lookup_addresses : result (list Address.t);
  lookup_links : result (list Link.t);
  lookup_link : string -> result (option Link.t);
  lookup_hostname : result (option string);
  lookup_nodeaddress : result (option (list string));
  lookup_resolvers : result (option (list string))
}.

(** The lookups answered by a reachable node.  A route names its link:
    the link of a route is looked up with the name as id, and an id is
    not empty. *)
Definition live (n : Node.t) : Provider := {|
  lookup_routes := Ok (Node.routes n);
  lookup_addresses := Ok (Node.addresses n);
  lookup_links := Ok (Node.links n);
  lookup_link := fun id =>
    Ok (find (fun l => String.eqb (Link.id l) id) (Node.links n));
  lookup_hostname := Ok (Node.hostname n);
  lookup_nodeaddress := Ok (Node.nodeaddress n);
  lookup_resolvers := Ok (Node.resolvers n)
|}.


(** Lookups through a connection that fails. *)
Definition unreachable : Provider := {|
  lookup_routes := Err ConnectivityError;
  lookup_addresses := Err ConnectivityError;
  lookup_links := Err ConnectivityError;
  lookup_link := fun _ => Err ConnectivityError;
  lookup_hostname := Err ConnectivityError;
  lookup_nodeaddress := Err ConnectivityError;
  lookup_resolvers := Err ConnectivityError
|}.

Module Helpers.
Import GoLib.

Definition rendered := result string.

(** An element of [.Disks]: the fields the templates read. *)
Record Disk := {
  device_name : string;
  system_disk : bool;
  model : string;
  serial : string;
  wwid : string;
  size : Z
}.

(** [talm.discovered.system_disk_name]: one iteration of the [range]
    on the variable [$disk]. *)
Definition system_disk_step (disk : string) (d : Disk) : string :=
  let disk := if String.eqb disk "" then device_name d else disk in
  if system_disk d then device_name d else disk.

Definition system_disk_name (Disks : list Disk) : string :=
  fold_left system_disk_step Disks "".

(** [talm.discovered.hostname] *)
Definition hostname (P : Provider) : rendered :=
  h <- lookup_hostname P ;;
  Ok (match h with Some name => name | None => "" end).

(** [talm.human_size], on the value of [$bytes] (an [int64]). *)
Definition human_size (bytes : Z) : string :=
  if bytes <? 1048576 then
    printf_2f (divf bytes 1048576) +:+ " MB"
  else if bytes <? 1073741824 then
    printf_2f (divf bytes 1073741824) +:+ " GB"
  else
    printf_2f (divf bytes 1099511627776) +:+ " TB".

(** [talm.discovered.default_addresses] *)
Definition default_addresses (P : Provider) : rendered :=
  a <- lookup_nodeaddress P ;;
  Ok (match a with Some l => GoJson.array l | None => "" end).

(** The test of every route scan:
    [and (eq .spec.dst "") (not (eq .spec.gateway ""))]. *)
Definition is_default (r : Route.t) : bool :=
  String.eqb (Route.dst r) "" && negb (String.eqb (Route.gateway r) "").

(** [talm.discovered.default_addresses_by_gateway]: the first [range],
    on the variables [$linkName] and [$family]. *)
Definition by_gateway_step (v : string * string) (r : Route.t)
  : string * string :=
  if is_default r then (Route.outLinkName r, Route.family r) else v.

(** [.Values.floatingIP] under [printf "%s/"]; an unset value prints
    as Go prints a nil operand. *)
Definition floating_prefix (floatingIP : option string) : string :=
  match floatingIP with
  | Some ip => ip +:+ "/"
  | None => "%!s(<nil>)/"
  end.

(** The two [if] of the second [range]. *)
Definition address_selected (floatingIP : option string)
    (linkName family : string) (a : Address.t) : bool :=
  String.eqb (Address.linkName a) linkName
  && String.eqb (Address.family a) family
  && negb (String.eqb (Address.scope a) "host")
  && negb (hasPrefix (floating_prefix floatingIP) (Address.address a)).

(** The second [range], on the variable [$addresses]. *)
Definition by_gateway_collect (floatingIP : option string)
    (linkName family : string) (acc : list string) (a : Address.t)
  : list string :=
  if address_selected floatingIP linkName family a
  then acc ++ [Address.address a] else acc.

Definition default_addresses_by_gateway (floatingIP : option string)
    (P : Provider) : rendered :=
  rs <- lookup_routes P ;;
  let '(linkName, family) := fold_left by_gateway_step rs ("", "") in
  items <- lookup_addresses P ;;
  Ok (GoJson.array
        (fold_left (by_gateway_collect floatingIP linkName family) items [])).

(** [regexMatch "^(eno|eth|enp|enx|ens)" .metadata.id] *)
Definition ethernet_name (id : string) : bool :=
  existsb (fun p => String.prefix p id) ["eno"; "eth"; "enp"; "enx"; "ens"].

Definition NL : string := String (ascii_of_N 10) "".

(** [talm.discovered.physical_links_info]: the text of one link. *)
Definition physical_link_info (l : Link.t) : string :=
  if negb (String.eqb (Link.busPath l) "") && ethernet_name (Link.id l) then
    NL +:+ "# enx" +:+ remove_byte ":" (Link.hardwareAddr l) +:+ ":"
    +:+ NL +:+ "#   id: " +:+ Link.id l
    +:+ NL +:+ "#   hardwareAddr:" +:+ Link.hardwareAddr l
    +:+ NL +:+ "#   busPath: " +:+ Link.busPath l
    +:+ NL +:+ "#   driver: " +:+ Link.driver l
    +:+ NL +:+ "#   vendor: " +:+ Link.vendor l
    +:+ NL +:+ "#   product: " +:+ Link.product l +:+ ")"
  else "".

Definition physical_links_info (P : Provider) : rendered :=
  items <- lookup_links P ;;
  Ok (fold_left (fun out l => out +:+ physical_link_info l) items
        (NL +:+ "# -- Discovered interfaces:")).

(** [talm.discovered.default_link_name_by_gateway] *)
Definition default_link_name_by_gateway (P : Provider) : rendered :=
  rs <- lookup_routes P ;;
  Ok (fold_left
        (fun out r => if is_default r then out +:+ Route.outLinkName r else out)
        rs "").

(** [talm.discovered.default_link_selector_by_gateway]: the [range]
    stops at the [break], which is inside the [with]. *)
Fixpoint link_selector_scan (P : Provider) (rs : list Route.t) : rendered :=
  match rs with
  | [] => Ok ""
  | r :: rs' =>
      if is_default r then
        l <- lookup_link P (Route.outLinkName r) ;;
        match l with
        | Some link =>
            Ok (NL +:+ "hardwareAddr: " +:+ Link.hardwareAddr link
                +:+ NL +:+ "driver: " +:+ Link.driver link)
        | None => link_selector_scan P rs'
        end
      else link_selector_scan P rs'
  end.

Definition default_link_selector_by_gateway (P : Provider) : rendered :=
  rs <- lookup_routes P ;;
  link_selector_scan P rs.

(** [talm.discovered.default_gateway] *)
Definition default_gateway (P : Provider) : rendered :=
  rs <- lookup_routes P ;;
  Ok (fold_left
        (fun out r => if is_default r then out +:+ Route.gateway r else out)
        rs "").

(** [talm.discovered.default_resolvers] *)
Definition default_resolvers (P : Provider) : rendered :=
  r <- lookup_resolvers P ;;
  Ok (match r with Some l => GoJson.array l | None => "" end).

(** [regexMatch "^/dev/(zd)" .device_name] *)
Definition zvol (name : string) : bool := String.prefix "/dev/zd" name.

(** [talm.discovered.disks_info]: the text of one disk. *)
Definition disk_info (d : Disk) : string :=
  if negb (zvol (device_name d)) then
    NL +:+ "# " +:+ device_name d +:+ ":"
    +:+ NL +:+ "#    model: " +:+ model d
    +:+ NL +:+ "#    serial: " +:+ serial d
    +:+ NL +:+ "#    wwid: " +:+ wwid d
    +:+ NL +:+ "#    size: " +:+ human_size (size d)
  else "".

Definition disks_info (Disks : list Disk) : string :=
  fold_left (fun out d => out +:+ disk_info d) Disks
    (NL +:+ "# -- Discovered disks:").

End Helpers.

(** ** The [template] command ([pkg/commands/template.go]) *)

Module TemplateCmd.

(** [templateCmdFlags] *)
Record Flags := {
  insecure : bool;
  valueFiles : list string;        (* --values *)
  templateFiles : list string;     (* -t/--template *)
  stringValues : list string;      (* --set-string *)
  values : list string;            (* --set *)
  fileValues : list string;        (* --set-file *)
  jsonValues : list string;        (* --set-json *)
  literalValues : list string;     (* --set-literal *)
  talosVersion : string;
  withSecrets : string;
  full : bool;
  offline : bool;
  kubernetesVersion : string
}.



(** [engine.Options] as [template] fills it. *)
Record Options := {
  o_Insecure : bool;
  o_ValueFiles : list string;
  o_StringValues : list string;
  o_Values : list string;
  o_FileValues : list string;
  o_JsonValues : list string;
  o_LiteralValues : list string;
  o_TalosVersion : string;
  o_WithSecrets : string;
  o_Full : bool;
  o_Root : string;
  o_Offline : bool;
  o_KubernetesVersion : string;
  o_TemplateFiles : list string
}.

(** [GlobalArgs]: the node and endpoint selectors of the invocation. *)
Record GlobalArgs := {
  Nodes : GoJson.slice;
  Endpoints : GoJson.slice
}.

(** [generateModeline] *)
Definition generateModeline (G : GlobalArgs) (templates : GoJson.slice)
  : result string :=
  match GoJson.Marshal (Nodes G) with
  | Err err => Err (Errorf "failed to marshal nodes" err)
  | Ok nodesJSON =>
      match GoJson.Marshal (Endpoints G) with
      | Err err => Err (Errorf "failed to marshal endpoints" err)
      | Ok endpointsJSON =>
          match GoJson.Marshal templates with
          | Err err => Err (Errorf "failed to marshal templates" err)
          | Ok templatesJSON =>
              Ok ("# talm: nodes=" +:+ nodesJSON
                  +:+ ", endpoints=" +:+ endpointsJSON
                  +:+ ", templates=" +:+ templatesJSON)
          end
      end
  end.

(** What running a command leaves: the text printed to the standard
    output and the returned [error]. *)
Definition outcome : Type := string * option error.

Section Run.
(** [*client.Client]; the nil pointer is [None]. *)
Variable Client : Type.
(** [engine.Render(ctx, c, opts)], of the engine package. *)
Variable Render : option Client -> Options -> result string.
(** [WithClient] and [WithClientMaintenance nil]: they connect to the
    node and run the action with the client, or fail. *)
Variable WithClient : (option Client -> outcome) -> outcome.
Variable WithClientMaintenance : (option Client -> outcome) -> outcome.

Variable G : GlobalArgs.
Variable RootDir : string.         (* Config.RootDir *)
Variable flags : Flags.            (* templateCmdFlags *)

(** The [engine.Options] that [template] builds. *)
Definition opts : Options := {|
  o_Insecure := insecure flags;
  o_ValueFiles := valueFiles flags;
  o_StringValues := stringValues flags;
  o_Values := values flags;
  o_FileValues := fileValues flags;
  o_JsonValues := jsonValues flags;
  o_LiteralValues := literalValues flags;
  o_TalosVersion := talosVersion flags;
  o_WithSecrets := withSecrets flags;
  o_Full := full flags;
  o_Root := RootDir;
  o_Offline := offline flags;
  o_KubernetesVersion := kubernetesVersion flags;
  o_TemplateFiles := templateFiles flags |}.

(** [template(args)]: the action run with the client. What it
    prints is [fmt.Printf("%s\n%s", modeline, string(result))]. *)
Definition template (args : GoJson.slice) (c : option Client) : outcome :=
  match Render c opts with
  | Err err => ("", Some (Errorf "failed to render templates" err))
  | Ok result =>
      match generateModeline G args with
      | Err err => ("", Some (Errorf "failed generate modeline" err))
      | Ok modeline =>
          (modeline +:+ Helpers.NL +:+ result, None)
      end
  end.


End Run.


End TemplateCmd.

(** ** The [init] command: writing the project's files *)

Module InitCmd.

(** The calls of package [os] on a state [W] of the system. [Stat] is
    [true] when [os.Stat] returns no error. [ReadFile] is not called
    by the command: it is what a later read of the file would see. *)
Class OS (W : Type) := {
  Stat : W -> string -> bool;
  MkdirAll : string -> N -> W -> W * option error;
  WriteFile : string -> string -> N -> W -> W * option error;
  Stderr : string -> W -> W;
  ReadFile : W -> string -> option string
}.

(** [strings.SplitN(s, sep, 2)] for a one-byte separator: the text
    before the first separator and, when there is one, the text after
    it. *)
Fixpoint SplitN2 (sep : ascii) (s : string) : list string :=
  match s with
  | EmptyString => [EmptyString]
  | String c s' =>
      if Ascii.eqb c sep then [EmptyString; s']
      else match SplitN2 sep s' with
           | x :: l => String c x :: l
           | [] => [String c EmptyString]
           end
  end.

Definition ModePerm : N := 511.  (* os.ModePerm, 0o777 *)

Section Write.
Context {W : Type} `{OS W}.
Variable force : bool.                          (* initCmdFlags.force *)
Variable filepath_Dir : string -> string.       (* filepath.Dir *)
Variable filepath_Join : list string -> string. (* filepath.Join *)
(** [fmt.Sprintf(content, a, b)] *)
Variable Sprintf : string -> string -> string -> string.

Definition validateFileExists (file : string) (w : W) : option error :=
  if negb force then
    if Stat w file then Some (AlreadyExists file) else None
  else None.

Definition writeToDestination (data destination : string)
    (permissions : N) (w : W) : W * option error :=
  match validateFileExists destination w with
  | Some err => (w, Some err)
  | None =>
      let parentDir := filepath_Dir destination in
      match MkdirAll parentDir ModePerm w with
      | (w1, Some err) =>
          (w1, Some (Errorf "failed to create output dir" err))
      | (w1, None) =>
          let '(w2, err) := WriteFile destination data permissions w1 in
          (Stderr ("Created " +:+ destination +:+ Helpers.NL) w2, err)
      end
  end.

Variable RootDir : string.       (* Config.RootDir *)
Variable Version : string.       (* Config.InitOptions.Version *)
Variable presetName : string.
Variable clusterName : string.

(** The loop "Write preset" that ends [initCmd.RunE], on the
    variable [err] of the function. [entries] lists
    [generated.PresetFiles] in the order the [range] visits the map,
    which Go leaves unspecified. *)
Fixpoint writePreset (entries : list (string * string))
    (err : option error) (w : W) : W * option error :=
  match entries with
  | [] => (w, None)
  | (path, content) :: rest =>
      let parts := SplitN2 "/" path in
      let chartName := List.hd "" parts in
      if String.eqb chartName presetName then
        let file := filepath_Join [RootDir; filepath_Join (List.tl parts)] in
        let '(w', err) :=
          if String.eqb (List.last parts "") "Chart.yaml" then
            (fst (writeToDestination
                    (Sprintf content clusterName Version) file 420 w),
             err)
          else writeToDestination content file 420 w in
        match err with
        | Some e => (w', Some e)
        | None => writePreset rest err w'
        end
      else writePreset rest err w
  end.

(** [*secrets.Bundle] and [yaml.Marshal] of it. *)
Variable Bundle : Type.
Variable yaml_Marshal : Bundle -> result string.

Definition writeSecretsBundleToFile (bundle : Bundle) (w : W)
  : W * option error :=
  match yaml_Marshal bundle with
  | Err err => (w, Some err)
  | Ok bundleBytes =>
      let secretsFile := filepath_Join [RootDir; "secrets.yaml"] in
      match validateFileExists secretsFile w with
      | Some err => (w, Some err)
      | None => writeToDestination bundleBytes secretsFile 420 w
      end
  end.

End Write.

(** [generated.AvailablePresets] *)
Definition AvailablePresets : list string := ["generic"; "cozystack"].

(** The keys of [generated.PresetFiles]. *)
Definition preset_paths : list string :=
  [ "cozystack/Chart.yaml";
    "cozystack/templates/_helpers.tpl";
    "cozystack/templates/controlplane.yaml";
    "cozystack/templates/worker.yaml";
    "cozystack/values.yaml";
    "generic/Chart.yaml";
    "generic/templates/_helpers.tpl";
    "generic/templates/controlplane.yaml";
    "generic/templates/worker.yaml";
    "generic/values.yaml";
    "talm/Chart.yaml";
    "talm/templates/_helpers.tpl" ].

(** The loop of [isValidPreset]. *)
Fixpoint isValidPreset_scan (preset : string) (presets : list string) : bool :=
  match presets with
  | [] => false
  | validPreset :: rest =>
      if String.eqb preset validPreset then true
      else isValidPreset_scan preset rest
  end.

Definition isValidPreset (preset : string) : bool :=
  isValidPreset_scan preset AvailablePresets.

(** The preset [initCmd.RunE] takes from its arguments. *)
Definition presetName_of (args : list string) : string :=
  match args with
  | [a] => a
  | _ => "generic"
  end.

(** A file system in memory: the files by path; directories are not
    kept, creating one always succeeds. *)
Record MemFS := {
  files : gmap string string;
  stderr : list string
}.

#[export] Instance MemOS : OS MemFS := {|
  Stat w p := match files w !! p with Some _ => true | None => false end;
  MkdirAll _ _ w := (w, None);
  WriteFile p d _ w :=
    ({| files := <[p := d]> (files w); stderr := stderr w |}, None);
  Stderr s w := {| files := files w; stderr := stderr w ++ [s] |};
  ReadFile w p := files w !! p
|}.

End InitCmd.

(** * Vocabulary of the statements, and sample data *)

Import GoLib Helpers InitCmd.

Definition is_digit (c : ascii) : Prop :=
  (48 <= N_of_ascii c <= 57)%N.


(** The system disk in the words of the specification: the first disk
    flagged as the system disk, or the first enumerated disk if none is
    flagged. *)
Definition system_disk_name_spec (Disks : list Disk) : string :=
  match List.find system_disk Disks with
  | Some d => device_name d
  | None => match Disks with d :: _ => device_name d | [] => "" end
  end.

Definition named (d : Disk) : Prop := device_name d <> "".

Definition sda : Disk :=
  {| device_name := "/dev/sda"; system_disk := true;
     model := ""; serial := ""; wwid := ""; size := 0 |}.
Definition sdb : Disk :=
  {| device_name := "/dev/sdb"; system_disk := true;
     model := ""; serial := ""; wwid := ""; size := 0 |}.
Definition sdc : Disk :=
  {| device_name := "/dev/sdc"; system_disk := false;
     model := ""; serial := ""; wwid := ""; size := 0 |}.

(** An address is the floating IP when it is the IP followed by a mask:
    [hasPrefix (printf "%s/" $.Values.floatingIP) .spec.address]. *)
Definition is_floating (floatingIP : option string) (addr : string) : Prop :=
  exists mask, addr = floating_prefix floatingIP +:+ mask.

Definition route4 : Route.t :=
  {| Route.dst := ""; Route.gateway := "192.168.100.1";
     Route.outLinkName := "eth0"; Route.family := "inet4" |}.
Definition route6 : Route.t :=
  {| Route.dst := ""; Route.gateway := "fe80::1";
     Route.outLinkName := "eth1"; Route.family := "inet6" |}.
Definition route_local : Route.t :=
  {| Route.dst := "192.168.100.0/24"; Route.gateway := "";
     Route.outLinkName := "eth0"; Route.family := "inet4" |}.

Definition addr_node : Address.t :=
  {| Address.address := "192.168.100.11/24"; Address.linkName := "eth0";
     Address.family := "inet4"; Address.scope := "global" |}.
Definition addr_vip : Address.t :=
  {| Address.address := "192.168.100.10/32"; Address.linkName := "eth0";
     Address.family := "inet4"; Address.scope := "global" |}.
Definition addr_lo : Address.t :=
  {| Address.address := "127.0.0.1/8"; Address.linkName := "lo";
     Address.family := "inet4"; Address.scope := "host" |}.
Definition addr_v6 : Address.t :=
  {| Address.address := "fd00::11/64"; Address.linkName := "eth1";
     Address.family := "inet6"; Address.scope := "global" |}.

Definition eth0 : Link.t :=
  {| Link.id := "eth0"; Link.hardwareAddr := "52:54:00:00:00:01";
     Link.busPath := "0000:00:03.0"; Link.driver := "virtio_net";
     Link.vendor := "Red Hat"; Link.product := "Virtio" |}.
Definition eth1 : Link.t :=
  {| Link.id := "eth1"; Link.hardwareAddr := "52:54:00:00:00:02";
     Link.busPath := "0000:00:04.0"; Link.driver := "e1000";
     Link.vendor := "Intel"; Link.product := "82540EM" |}.

(** A node with one default route. *)
Definition node_single : Node.t :=
  {| Node.routes := [route_local; route4];
     Node.addresses := [addr_lo; addr_vip; addr_node];
     Node.links := [eth0; eth1];
     Node.hostname := Some "node1";
     Node.nodeaddress := Some ["192.168.100.11"];
     Node.resolvers := Some ["8.8.8.8"] |}.

(** A dual-stack node: two default routes. *)
Definition node_dual : Node.t :=
  {| Node.routes := [route4; route_local; route6];
     Node.addresses := [addr_lo; addr_node; addr_v6];
     Node.links := [eth0; eth1];
     Node.hostname := Some "node2";
     Node.nodeaddress := Some ["192.168.100.11"];
     Node.resolvers := Some ["8.8.8.8"] |}.







(** No byte of the text is a control byte: in particular the text has no
    line break. *)
Fixpoint printable (s : string) : bool :=
  match s with
  | EmptyString => true
  | String c s' => (32 <=? N_of_ascii c)%N && printable s'
  end.

(** The [k] bytes that a multi-byte rune leaves to copy are continuation
    bytes. *)
Fixpoint high (k : nat) (s : string) : Prop :=
  match k, s with
  | S k', String c s' => (128 <= N_of_ascii c)%N /\ high k' s'
  | _, _ => True
  end.

Definition pending_ok (p : GoJson.pending) (s : string) : Prop :=
  match p with
  | GoJson.Copy k => high k s
  | GoJson.Drop _ => True
  end.




(** What the system guarantees of a write that returns no error, and of
    a message on the standard error. *)
Class LawfulOS (W : Type) `{OS W} : Prop := {
  WriteFile_ReadFile :
    forall (p d : string) (m : N) (w w' : W),
      WriteFile p d m w = (w', None) -> ReadFile w' p = Some d;
  Stderr_ReadFile :
    forall (s : string) (w : W) (p : string),
      ReadFile (Stderr s w) p = ReadFile w p
}.

Definition project : MemFS :=
  {| files := {[ "./Chart.yaml" := "name: old" ]}; stderr := [] |}.

Definition dir_dot (p : string) : string := ".".

(** The file a preset entry is written to. *)
Definition preset_file (filepath_Join : list string -> string)
    (RootDir path : string) : string :=
  filepath_Join [RootDir; filepath_Join (List.tl (SplitN2 "/" path))].

(** The entry belongs to the preset, and is or is not its Chart.yaml. *)
Definition of_preset (presetName path : string) : Prop :=
  List.hd "" (SplitN2 "/" path) = presetName.

Definition is_chart (path : string) : Prop :=
  List.last (SplitN2 "/" path) "" = "Chart.yaml".

Definition join_slash (l : list string) : string := GoJson.join "/" l.

Definition sprintf_plain (content a b : string) : string := content.

Definition generic_preset : list (string * string) :=
  [ ("generic/Chart.yaml", "name: new");
    ("cozystack/values.yaml", "floatingIP: 192.168.100.10");
    ("generic/values.yaml", "endpoint: https://192.168.100.10:6443") ].










(** The texts of a list one after the other. *)
Definition joined (l : list string) : string :=
  fold_right String.append "" l.

(** The node with its links replaced. *)
Definition with_links (n : Node.t) (ls : list Link.t) : Node.t :=
  {| Node.routes := Node.routes n;
     Node.addresses := Node.addresses n;
     Node.links := ls;
     Node.hostname := Node.hostname n;
     Node.nodeaddress := Node.nodeaddress n;
     Node.resolvers := Node.resolvers n |}.

(** The text a default route's link is described with. *)
Definition selector_text (link : Link.t) : string :=
  NL +:+ "hardwareAddr: " +:+ Link.hardwareAddr link
  +:+ NL +:+ "driver: " +:+ Link.driver link.

(** A node without a default route. *)
Definition node_isolated : Node.t :=
  {| Node.routes := [route_local];
     Node.addresses := [addr_lo; addr_node];
     Node.links := [eth0];
     Node.hostname := None;
     Node.nodeaddress := None;
     Node.resolvers := None |}.

(** The test of the physical links inventory: a bus path and an
    ethernet name. *)
Definition physical (l : Link.t) : bool :=
  negb (String.eqb (Link.busPath l) "") && ethernet_name (Link.id l).

(** Comment lines: each a line break, the comment sign and a text. *)
Definition block (lines : list string) : string :=
  fold_right (fun l rest => NL +:+ "#" +:+ l +:+ rest) "" lines.

Definition no_control (lines : list string) : Prop :=
  List.Forall (fun l => printable l = true) lines.

Definition disk_printable (d : Disk) : Prop :=
  printable (device_name d) = true /\ printable (model d) = true
  /\ printable (serial d) = true /\ printable (wwid d) = true.

Definition link_printable (l : Link.t) : Prop :=
  printable (Link.id l) = true /\ printable (Link.hardwareAddr l) = true
  /\ printable (Link.busPath l) = true /\ printable (Link.driver l) = true
  /\ printable (Link.vendor l) = true /\ printable (Link.product l) = true.

(** A number that is 0.dd or 1.00, followed by a unit. *)
Definition at_most_one (unit s : string) : Prop :=
  (exists d1 d2 : ascii,
      is_digit d1 /\ is_digit d2
      /\ s = "0." +:+ String d1 (String d2 (" " +:+ unit)))
  \/ s = "1.00 " +:+ unit.

Definition zd0 : Disk :=
  {| device_name := "/dev/zd0"; system_disk := false;
     model := ""; serial := ""; wwid := ""; size := 1073741824 |}.

(** What the system guarantees of the files a call does not name:
    writing a file leaves the other files as they are, and creating
    directories leaves every file as it is. *)
Class FramedOS (W : Type) `{OS W} : Prop := {
  WriteFile_other :
    forall (p d : string) (m : N) (w w' : W) (e : option error) (q : string),
      WriteFile p d m w = (w', e) -> q <> p -> ReadFile w' q = ReadFile w q;
  MkdirAll_ReadFile :
    forall (d : string) (m : N) (w w' : W) (e : option error) (q : string),
      MkdirAll d m w = (w', e) -> ReadFile w' q = ReadFile w q
}.

(** The entries of the preset, by the test of the loop. *)
Definition in_preset (presetName : string) (entry : string * string) : bool :=
  String.eqb (List.hd "" (SplitN2 "/" entry.1)) presetName.

(** The files the loop writes to, in the order of the entries. *)
Definition preset_targets (filepath_Join : list string -> string)
    (RootDir presetName : string) (entries : list (string * string))
  : list string :=
  map (fun entry => preset_file filepath_Join RootDir entry.1)
    (List.filter (in_preset presetName) entries).

(** The byte occurs in the text. *)
Fixpoint occurs (c : ascii) (s : string) : bool :=
  match s with
  | EmptyString => false
  | String a s' => Ascii.eqb a c || occurs c s'
  end.

(** The five files of a preset, below the root of the project. *)
Definition preset_layout : list (list string) :=
  [ ["Chart.yaml"];
    ["templates/_helpers.tpl"];
    ["templates/controlplane.yaml"];
    ["templates/worker.yaml"];
    ["values.yaml"] ].

Definition empty_project : MemFS := {| files := ∅; stderr := [] |}.

Definition project_with_secrets : MemFS :=
  {| files := {[ "./secrets.yaml" := "old" ]}; stderr := [] |}.

Definition marshal_text (bundle : string) : result string := Ok bundle.

(** * Properties *)

(** ** Strings *)

Lemma append_cons (x : ascii) (a b : string) :
  String x a +:+ b = String x (a +:+ b).
Proof. reflexivity. Qed.


Lemma append_nil_r (s : string) : s +:+ "" = s.
Proof.
  induction s as [|c s IH]; [reflexivity|].
  by rewrite append_cons, IH.
Qed.

Lemma append_assoc (a b c : string) : (a +:+ b) +:+ c = a +:+ b +:+ c.
Proof.
  induction a as [|x a IH]; [reflexivity|].
  by rewrite !append_cons, IH.
Qed.

(** ** Lists *)

Lemma find_app {A} (f : A -> bool) (l l' : list A) :
  List.find f (l ++ l') =
    match List.find f l with
    | Some x => Some x
    | None => List.find f l'
    end.
Proof.
  induction l as [|x l IH]; [reflexivity|].
  cbn. destruct (f x); [reflexivity | exact IH].
Qed.

(** ** [talm.human_size] *)

Lemma digit_is_digit (n : Z) : 0 <= n <= 9 -> is_digit (digit n).
Proof.
  intros Hn. unfold is_digit, digit.
  rewrite N_ascii_embedding by lia. lia.
Qed.


Lemma human_size_MB (bytes : Z) :
  bytes < 1048576 ->
  human_size bytes = printf_2f (divf bytes 1048576) +:+ " MB".
Proof.
  intros Hlt. unfold human_size.
  destruct (Z.ltb_spec bytes 1048576); [reflexivity | lia].
Qed.

Lemma human_size_GB (bytes : Z) :
  1048576 <= bytes < 1073741824 ->
  human_size bytes = printf_2f (divf bytes 1073741824) +:+ " GB".
Proof.
  intros [Hlo Hhi]. unfold human_size.
  destruct (Z.ltb_spec bytes 1048576); [lia|].
  destruct (Z.ltb_spec bytes 1073741824); [reflexivity | lia].
Qed.

Lemma human_size_TB (bytes : Z) :
  1073741824 <= bytes ->
  human_size bytes = printf_2f (divf bytes 1099511627776) +:+ " TB".
Proof.
  intros Hlo. unfold human_size.
  destruct (Z.ltb_spec bytes 1048576); [lia|].
  destruct (Z.ltb_spec bytes 1073741824); [lia | reflexivity].
Qed.




(** ** [talm.discovered.system_disk_name] *)

Lemma system_disk_step_named (disk : string) (d : Disk) :
  named d -> disk <> "" ->
  system_disk_step disk d = if system_disk d then device_name d else disk.
Proof.
  intros _ Hdisk. unfold system_disk_step.
  destruct (String.eqb_spec disk ""); [contradiction | reflexivity].
Qed.

(** Once [$disk] holds a name, the scan leaves in it the name of the
    last flagged disk it meets. *)
Lemma system_disk_scan (Disks : list Disk) (disk : string) :
  Forall named Disks -> disk <> "" ->
  fold_left system_disk_step Disks disk =
    match List.find system_disk (rev Disks) with
    | Some d => device_name d
    | None => disk
    end
  /\ fold_left system_disk_step Disks disk <> "".
Proof.
  intros Hall Hdisk.
  induction Disks as [|d Disks IH] using rev_ind; [done|].
  apply Forall_app in Hall as [Hall Hd]. apply Forall_cons_1 in Hd as [Hd _].
  destruct (IH Hall) as [IHeq IHne].
  rewrite fold_left_app, rev_app_distr. cbn [fold_left rev List.app List.find].
  rewrite system_disk_step_named by assumption.
  destruct (system_disk d); [split; [reflexivity | exact Hd] | by split].
Qed.

(** C2, as the code has it: on a non-empty list of disks that all have a
    device name, the helper gives the device name of the last disk
    flagged as the system disk, or of the first enumerated disk if none
    is flagged. *)
Theorem system_disk_name_last_flagged (d0 : Disk) (rest : list Disk) :
  Forall named (d0 :: rest) ->
  system_disk_name (d0 :: rest) =
    match List.find system_disk (rev (d0 :: rest)) with
    | Some d => device_name d
    | None => device_name d0
    end.
Proof.
  intros Hall. apply Forall_cons_1 in Hall as [H0 Hrest].
  unfold system_disk_name. cbn [fold_left].
  assert (Hfirst : system_disk_step "" d0 = device_name d0).
  { unfold system_disk_step. cbn. by destruct (system_disk d0). }
  rewrite Hfirst.
  destruct (system_disk_scan rest (device_name d0) Hrest H0) as [-> _].
  cbn [rev]. rewrite find_app.
  destruct (List.find system_disk (rev rest)); [reflexivity|].
  cbn. by destruct (system_disk d0).
Qed.

Lemma system_disk_name_last_flagged_witness :
  system_disk_name [sdc; sda; sdb; sdc] = "/dev/sdb"
  /\ system_disk_name [sdc; sdc] = "/dev/sdc".
Proof.
  split.
  - apply (system_disk_name_last_flagged sdc [sda; sdb; sdc]).
    repeat constructor; discriminate.
  - apply (system_disk_name_last_flagged sdc [sdc]).
    repeat constructor; discriminate.
Defined.

(** C2 as stated fails when two disks are flagged: the scan keeps the
    later one. *)
Lemma system_disk_name_not_first_flagged :
  system_disk_name_spec [sda; sdb] = "/dev/sda"
  /\ system_disk_name [sda; sdb] = "/dev/sdb"
  /\ system_disk_name [sda; sdb] <> system_disk_name_spec [sda; sdb].
Proof. repeat split; discriminate. Qed.

(** ** The route scans *)

(** A [range] whose body acts under an [if] is the same [range] over the
    items that pass the test. *)
Lemma fold_left_filter {A B} (p : B -> bool) (f : A -> B -> A)
    (l : list B) (a : A) :
  fold_left (fun acc x => if p x then f acc x else acc) l a =
  fold_left f (List.filter p l) a.
Proof.
  revert a. induction l as [|x l IH]; intros a; [reflexivity|].
  cbn. destruct (p x); cbn; apply IH.
Qed.

Lemma by_gateway_scan (rs : list Route.t) (v : string * string) :
  fold_left by_gateway_step rs v =
    match List.find is_default (rev rs) with
    | Some r => (Route.outLinkName r, Route.family r)
    | None => v
    end.
Proof.
  induction rs as [|r rs IH] using rev_ind; [reflexivity|].
  rewrite fold_left_app, rev_app_distr. cbn.
  unfold by_gateway_step at 1. by destruct (is_default r).
Qed.

Lemma find_rev_filter_last {A} (p : A -> bool) (l front : list A) (x : A) :
  List.filter p l = front ++ [x] -> List.find p (rev l) = Some x.
Proof.
  revert front. induction l as [|y l IH] using rev_ind; intros front Hf.
  - by destruct front.
  - rewrite List.filter_app in Hf. rewrite rev_app_distr. cbn in *.
    destruct (p y) eqn:Hy.
    + apply app_inj_tail in Hf as [_ ->]. reflexivity.
    + rewrite app_nil_r in Hf. eauto.
Qed.

Lemma by_gateway_collect_scan (fip : option string) (linkName family : string)
    (items : list Address.t) (acc : list string) :
  fold_left (by_gateway_collect fip linkName family) items acc =
  acc ++ map Address.address
           (List.filter (address_selected fip linkName family) items).
Proof.
  revert acc. induction items as [|a items IH]; intros acc.
  - by rewrite app_nil_r.
  - cbn. rewrite IH. unfold by_gateway_collect.
    destruct (address_selected fip linkName family a); [|reflexivity].
    by rewrite <- app_assoc.
Qed.

Lemma prefix_append (p s : string) :
  String.prefix p s = true <-> exists rest, s = p +:+ rest.
Proof.
  revert s. induction p as [|c p IH]; intros s.
  - split; [intros _; by exists s | intros _; by destruct s].
  - destruct s as [|d s]; cbn.
    + split; [discriminate | intros [rest Hr]; discriminate Hr].
    + destruct (ascii_dec c d) as [->|Hne].
      * rewrite IH. split; intros [rest Hr]; exists rest.
        -- by rewrite append_cons, Hr.
        -- rewrite append_cons in Hr. congruence.
      * split; [discriminate | intros [rest Hr]].
        rewrite append_cons in Hr. congruence.
Qed.

Lemma address_selected_iff (fip : option string) (linkName family : string)
    (a : Address.t) :
  address_selected fip linkName family a = true <->
  Address.linkName a = linkName
  /\ Address.family a = family
  /\ Address.scope a <> "host"
  /\ ~ is_floating fip (Address.address a).
Proof.
  unfold address_selected, is_floating, hasPrefix.
  rewrite !andb_true_iff, !negb_true_iff, !String.eqb_eq, String.eqb_neq.
  rewrite <- prefix_append.
  destruct (String.prefix _ _); intuition congruence.
Qed.

Lemma default_addresses_last_route (fip : option string) (n : Node.t)
    (front : list Route.t) (r : Route.t) :
  List.filter is_default (Node.routes n) = front ++ [r] ->
  default_addresses_by_gateway fip (live n) =
    Ok (GoJson.array
          (map Address.address
             (List.filter
                (address_selected fip (Route.outLinkName r) (Route.family r))
                (Node.addresses n)))).
Proof.
  intros Hlast. unfold default_addresses_by_gateway. cbn.
  rewrite by_gateway_scan, (find_rev_filter_last _ _ _ _ Hlast).
  by rewrite by_gateway_collect_scan.
Qed.

(** C3: on a node whose routes hold exactly one default route (empty
    destination, non-empty gateway), [talm.discovered.default_gateway]
    renders exactly the gateway of that route. *)
Theorem default_gateway_single_route (n : Node.t) (r : Route.t) :
  List.filter is_default (Node.routes n) = [r] ->
  default_gateway (live n) = Ok (Route.gateway r).
Proof.
  intros Hone. unfold default_gateway. cbn.
  rewrite (fold_left_filter is_default (fun out r => out +:+ Route.gateway r)).
  by rewrite Hone.
Qed.

Lemma default_gateway_single_route_witness :
  default_gateway (live node_single) = Ok "192.168.100.1".
Proof.
  apply (default_gateway_single_route node_single route4). reflexivity.
Defined.

(** C4: on a node with exactly one default route,
    [talm.discovered.default_addresses_by_gateway] renders the JSON list
    of exactly the addresses, in the order of the node, that are on the
    link the route names, of the family of the route, not of scope
    "host", and not the floating IP. *)
Theorem default_addresses_single_route (floatingIP : option string)
    (n : Node.t) (r : Route.t) :
  List.filter is_default (Node.routes n) = [r] ->
  exists selected : list Address.t,
    default_addresses_by_gateway floatingIP (live n) =
      Ok (GoJson.array (map Address.address selected))
    /\ selected =
         List.filter
           (address_selected floatingIP (Route.outLinkName r) (Route.family r))
           (Node.addresses n)
    /\ forall a : Address.t,
         In a selected <->
         In a (Node.addresses n)
         /\ Address.linkName a = Route.outLinkName r
         /\ Address.family a = Route.family r
         /\ Address.scope a <> "host"
         /\ ~ is_floating floatingIP (Address.address a).
Proof.
  intros Hone. eexists. split; [|split; [reflexivity|]].
  - exact (default_addresses_last_route floatingIP n [] r Hone).
  - intros a. rewrite List.filter_In, address_selected_iff. reflexivity.
Qed.

Lemma default_addresses_single_route_witness :
  exists selected : list Address.t,
    default_addresses_by_gateway (Some "192.168.100.10") (live node_single) =
      Ok (GoJson.array (map Address.address selected))
    /\ selected = [addr_node]
    /\ forall a : Address.t,
         In a selected <->
         In a (Node.addresses node_single)
         /\ Address.linkName a = "eth0"
         /\ Address.family a = "inet4"
         /\ Address.scope a <> "host"
         /\ ~ is_floating (Some "192.168.100.10") (Address.address a).
Proof.
  apply (default_addresses_single_route
           (Some "192.168.100.10") node_single route4).
  reflexivity.
Defined.

Example default_addresses_node_single :
  default_addresses_by_gateway (Some "192.168.100.10") (live node_single)
  = Ok ("[" +:+ GoJson.quote "192.168.100.11/24" +:+ "]").
Proof. reflexivity. Qed.

(** ** Several default routes *)





Example default_gateway_node_dual :
  default_gateway (live node_dual) = Ok "192.168.100.1fe80::1".
Proof. reflexivity. Qed.

(** ** Offline mode *)




(** Through a connection that fails the same helper fails. *)
Example default_gateway_unreachable :
  default_gateway unreachable = Err ConnectivityError.
Proof. reflexivity. Qed.

(** ** The modeline *)

Lemma printable_app (a b : string) :
  printable (a +:+ b) = printable a && printable b.
Proof.
  induction a as [|c a IH]; [reflexivity|].
  rewrite append_cons. cbn. by rewrite IH, andb_assoc.
Qed.


Lemma escape_ascii_printable (c : ascii) :
  printable (GoJson.escape_ascii c) = true.
Proof. destruct c as [[] [] [] [] [] [] [] []]; reflexivity. Qed.

Lemma line_separator_printable (s : string) (h : ascii) :
  GoJson.line_separator s = Some h -> (32 <=? N_of_ascii h)%N = true.
Proof.
  destruct s as [|c0 [|c1 [|c2 s]]]; try discriminate. cbn.
  destruct (_ && _); [|discriminate]. intros [= <-].
  destruct c2 as [[] [] [] [] [] [] [] []]; reflexivity.
Qed.

Lemma rune_width_high (c : ascii) (s : string) (k : nat) :
  GoJson.rune_width (String c s) = S k -> high k s.
Proof.
  unfold GoJson.rune_width, GoJson.is_Some_b, GoJson.continuation.
  intros Hw.
  repeat (case_match; simplify_eq; try done);
    cbn; rewrite ?andb_true_iff, ?N.leb_le in *; unfold GoJson.byte in *;
    intuition lia.
Qed.

Lemma quote_from_printable (s : string) (p : GoJson.pending) :
  pending_ok p s -> printable (GoJson.quote_from p s) = true.
Proof.
  revert p. induction s as [|c s IH]; intros p Hp; [reflexivity|].
  assert (Hstart :
    printable
      (if (GoJson.byte c <? 128)%N
       then GoJson.escape_ascii c +:+ GoJson.quote_from (GoJson.Copy 0) s
       else match GoJson.rune_width (String c s) with
            | O => "\ufffd" +:+ GoJson.quote_from (GoJson.Copy 0) s
            | S k =>
                match GoJson.line_separator (String c s) with
                | Some h =>
                    "\u202" +:+ String h (GoJson.quote_from (GoJson.Drop k) s)
                | None => String c (GoJson.quote_from (GoJson.Copy k) s)
                end
            end) = true).
  { destruct (N.ltb_spec (GoJson.byte c) 128) as [Hlow|Hhigh].
    - rewrite printable_app, escape_ascii_printable. by apply IH.
    - destruct (GoJson.rune_width (String c s)) as [|k] eqn:Hw.
      + rewrite printable_app. by apply IH.
      + destruct (GoJson.line_separator (String c s)) as [h|] eqn:Hsep.
        * rewrite printable_app. cbn.
          rewrite (line_separator_printable _ _ Hsep). by apply IH.
        * cbn. apply andb_true_iff. split.
          -- apply N.leb_le. unfold GoJson.byte in Hhigh. lia.
          -- apply IH. exact (rune_width_high _ _ _ Hw). }
  destruct p as [[|k]|[|k]]; cbn [GoJson.quote_from]; try exact Hstart.
  - destruct Hp as [Hc Hs]. cbn. apply andb_true_iff. split.
    + apply N.leb_le. lia.
    + by apply IH.
  - by apply IH.
Qed.

Lemma quote_printable (s : string) : printable (GoJson.quote s) = true.
Proof.
  unfold GoJson.quote. rewrite append_cons. cbn.
  rewrite printable_app. by rewrite quote_from_printable.
Qed.

Lemma join_printable (sep : string) (l : list string) :
  printable sep = true -> Forall (fun x => printable x = true) l ->
  printable (GoJson.join sep l) = true.
Proof.
  intros Hsep Hl. induction Hl as [|x l Hx Hl IH]; [reflexivity|].
  destruct l as [|y l]; [exact Hx|].
  change (GoJson.join sep (x :: y :: l))
    with (x +:+ sep +:+ GoJson.join sep (y :: l)).
  by rewrite !printable_app, Hx, Hsep, IH.
Qed.

Lemma encode_printable (v : GoJson.slice) :
  printable (GoJson.encode v) = true.
Proof.
  destruct v as [l|]; [|reflexivity].
  unfold GoJson.encode, GoJson.array. rewrite !printable_app.
  rewrite join_printable; [reflexivity..|].
  apply List.Forall_forall. intros x [s [<- _]]%in_map_iff.
  apply quote_printable.
Qed.



(** ** The [init] command *)

#[export] Instance MemOS_lawful : LawfulOS MemFS.
Proof.
  split.
  - intros p d m w w' [= <-]. cbn. apply lookup_insert_eq.
  - reflexivity.
Qed.

(** C8: when the destination exists, [writeToDestination] without the
    force flag returns the "already exists" error and leaves the system
    as it was, nothing written and nothing printed; with the force flag
    it goes on to create the directory and write, and when both calls
    succeed the file holds the new data. *)
Theorem writeToDestination_existing {W : Type} `{LawfulOS W}
    (filepath_Dir : string -> string) (data destination : string)
    (permissions : N) (w : W) :
  Stat w destination = true ->
  writeToDestination false filepath_Dir data destination permissions w
  = (w, Some (AlreadyExists destination))
  /\ forall w1 w2 : W,
       MkdirAll (filepath_Dir destination) ModePerm w = (w1, None) ->
       WriteFile destination data permissions w1 = (w2, None) ->
       exists w' : W,
         writeToDestination true filepath_Dir data destination permissions w
         = (w', None)
         /\ ReadFile w' destination = Some data.
Proof.
  intros Hexists. split.
  - unfold writeToDestination, validateFileExists. cbn. by rewrite Hexists.
  - intros w1 w2 Hmk Hwr. eexists. split.
    + unfold writeToDestination, validateFileExists. cbn.
      rewrite Hmk, Hwr. reflexivity.
    + rewrite Stderr_ReadFile. exact (WriteFile_ReadFile _ _ _ _ _ Hwr).
Qed.

Lemma writeToDestination_existing_witness :
  writeToDestination false dir_dot "name: new" "./Chart.yaml" 420 project
  = (project, Some (AlreadyExists "./Chart.yaml"))
  /\ exists w' : MemFS,
       writeToDestination true dir_dot "name: new" "./Chart.yaml" 420 project
       = (w', None)
       /\ ReadFile w' "./Chart.yaml" = Some "name: new".
Proof.
  assert (Hexists : Stat project "./Chart.yaml" = true)
    by (vm_compute; reflexivity).
  destruct (writeToDestination_existing dir_dot "name: new" "./Chart.yaml"
              420 project Hexists) as [Hkeep Hforce].
  split; [exact Hkeep|].
  exact (Hforce _ _ eq_refl eq_refl).
Defined.

(** C10: in the loop that writes the preset, the error of the write of
    Chart.yaml is dropped and the loop goes on with the next file; the
    error of the write of any other file of the preset ends the loop
    and is returned; so an error the loop returns is always the error
    of the write of a file that is not Chart.yaml. *)
Theorem chart_yaml_error_discarded {W : Type} `{OS W} (force : bool)
    (filepath_Dir : string -> string) (filepath_Join : list string -> string)
    (Sprintf : string -> string -> string -> string)
    (RootDir Version presetName clusterName : string) :
  let write := writeToDestination (W := W) force filepath_Dir in
  let loop :=
    writePreset force filepath_Dir filepath_Join Sprintf
      RootDir Version presetName clusterName in
  (forall (path content : string) (rest : list (string * string)) (w : W),
      of_preset presetName path -> is_chart path ->
      loop ((path, content) :: rest) None w =
      loop rest None
        (write (Sprintf content clusterName Version)
           (preset_file filepath_Join RootDir path) 420%N w).1)
  /\ (forall (path content : string) (rest : list (string * string))
        (w w1 : W) (e : error),
      of_preset presetName path -> ~ is_chart path ->
      write content (preset_file filepath_Join RootDir path) 420%N w
      = (w1, Some e) ->
      loop ((path, content) :: rest) None w = (w1, Some e))
  /\ (forall (entries : list (string * string)) (w w' : W) (e : error),
      loop entries None w = (w', Some e) ->
      exists (path content : string) (w0 : W),
        In (path, content) entries
        /\ of_preset presetName path /\ ~ is_chart path
        /\ write content (preset_file filepath_Join RootDir path) 420%N w0
           = (w', Some e)).
Proof.
  intros write loop. unfold of_preset, is_chart, preset_file.
  split; [|split].
  - intros path content rest w Hpre Hchart. subst loop write.
    cbn [writePreset]. apply String.eqb_eq in Hpre, Hchart.
    rewrite Hpre, Hchart. by destruct (writeToDestination _ _ _ _ _ _).
  - intros path content rest w w1 e Hpre Hchart Hw. subst loop write.
    cbn [writePreset]. apply String.eqb_eq in Hpre.
    apply String.eqb_neq in Hchart. rewrite Hpre, Hchart, Hw. reflexivity.
  - intros entries. induction entries as [|[path content] rest IH];
      intros w w' e Hloop; [discriminate Hloop|].
    subst loop write. cbn [writePreset] in Hloop.
    destruct (String.eqb_spec (List.hd "" (SplitN2 "/" path)) presetName)
      as [Hpre|Hpre].
    + destruct (String.eqb_spec (List.last (SplitN2 "/" path) "") "Chart.yaml")
        as [Hchart|Hchart].
      * destruct (writeToDestination _ _ _ _ _ _) as [w1 e1] in Hloop.
        cbn in Hloop.
        destruct (IH _ _ _ Hloop) as (p & c & w0 & Hin & Hrest).
        exists p, c, w0. split; [by right | exact Hrest].
      * destruct (writeToDestination force filepath_Dir content _ 420%N w)
          as [w1 [e1|]] eqn:Hw.
        -- injection Hloop as <- <-. exists path, content, w.
           split; [by left | by repeat split].
        -- destruct (IH _ _ _ Hloop) as (p & c & w0 & Hin & Hrest).
           exists p, c, w0. split; [by right | exact Hrest].
    + destruct (IH _ _ _ Hloop) as (p & c & w0 & Hin & Hrest).
      exists p, c, w0. split; [by right | exact Hrest].
Qed.

Lemma chart_yaml_error_discarded_witness :
  writePreset false dir_dot join_slash sprintf_plain
    "." "0.1.0" "generic" "talm" generic_preset None project
  = writePreset false dir_dot join_slash sprintf_plain
      "." "0.1.0" "generic" "talm" (List.tl generic_preset) None
      (writeToDestination false dir_dot "name: new" "./Chart.yaml" 420
         project).1.
Proof.
  apply (proj1 (chart_yaml_error_discarded false dir_dot join_slash
                  sprintf_plain "." "0.1.0" "generic" "talm")
           "generic/Chart.yaml" "name: new" (List.tl generic_preset) project);
    reflexivity.
Defined.

Example init_keeps_existing_chart :
  let '(w, err) :=
    writePreset false dir_dot join_slash sprintf_plain
      "." "0.1.0" "generic" "talm" generic_preset None project in
  err = None
  /\ ReadFile w "./Chart.yaml" = Some "name: old"
  /\ ReadFile w "./values.yaml" = Some "endpoint: https://192.168.100.10:6443".
Proof. vm_compute. by repeat split. Qed.

(** ** The options of the [template] command *)








(** * Further properties of the code *)

(** ** The route scans, whatever the number of default routes *)

Lemma fold_left_append (l : list string) (acc : string) :
  fold_left String.append l acc = acc +:+ joined l.
Proof.
  revert acc. induction l as [|x l IH]; intros acc.
  - by rewrite append_nil_r.
  - cbn. rewrite IH. apply append_assoc.
Qed.

Lemma fold_left_map {A B C} (f : A -> C -> A) (g : B -> C) (l : list B)
    (a : A) :
  fold_left (fun acc x => f acc (g x)) l a = fold_left f (map g l) a.
Proof. revert a. induction l as [|x l IH]; intros a; [reflexivity | apply IH]. Qed.

(** X1: the gateway helper and the link-name helper print what every
    default route gives, one after the other in the order of the routes,
    with nothing in between; without a default route they print
    nothing. *)
Theorem default_gateway_all_routes (n : Node.t) :
  default_gateway (live n) =
    Ok (joined (map Route.gateway (List.filter is_default (Node.routes n))))
  /\ default_link_name_by_gateway (live n) =
       Ok (joined (map Route.outLinkName
                     (List.filter is_default (Node.routes n)))).
Proof.
  unfold default_gateway, default_link_name_by_gateway. cbn. split.
  - rewrite (fold_left_filter is_default (fun out r => out +:+ Route.gateway r)).
    rewrite (fold_left_map String.append Route.gateway).
    by rewrite fold_left_append.
  - rewrite (fold_left_filter is_default
               (fun out r => out +:+ Route.outLinkName r)).
    rewrite (fold_left_map String.append Route.outLinkName).
    by rewrite fold_left_append.
Qed.

(** X2: whatever the routes, the addresses the helper renders are
    addresses of the node, in the order of the node, all on one link and
    of one family, none of scope "host" and none the floating IP. *)
Theorem default_addresses_safe (floatingIP : option string) (n : Node.t) :
  exists (link family : string) (selected : list Address.t),
    default_addresses_by_gateway floatingIP (live n) =
      Ok (GoJson.array (map Address.address selected))
    /\ sublist selected (Node.addresses n)
    /\ forall a : Address.t,
         In a selected ->
         Address.linkName a = link
         /\ Address.family a = family
         /\ Address.scope a <> "host"
         /\ ~ is_floating floatingIP (Address.address a).
Proof.
  unfold default_addresses_by_gateway. cbn.
  destruct (fold_left by_gateway_step (Node.routes n) ("", "")) as [link family].
  exists link, family,
    (List.filter (address_selected floatingIP link family) (Node.addresses n)).
  split; [by rewrite by_gateway_collect_scan|]. split.
  - induction (Node.addresses n) as [|a l IH]; [constructor|].
    cbn. destruct (address_selected floatingIP link family a);
      [by apply sublist_skip | by apply sublist_cons].
  - intros a [_ Ha]%List.filter_In. by apply address_selected_iff.
Qed.

(** X3: on a node without a default route the scan leaves the link name
    and the family empty, so, every address of a node being on a named
    link, the addresses helper renders the empty JSON list. *)
Theorem default_addresses_no_default_route (floatingIP : option string)
    (n : Node.t) :
  List.filter is_default (Node.routes n) = [] ->
  (forall a : Address.t, In a (Node.addresses n) -> Address.linkName a <> "") ->
  default_addresses_by_gateway floatingIP (live n) = Ok "[]".
Proof.
  intros Hnone Hnamed. unfold default_addresses_by_gateway. cbn.
  assert (Hscan : fold_left by_gateway_step (Node.routes n) ("", "") = ("", "")).
  { change by_gateway_step
      with (fun (v : string * string) (r : Route.t) =>
              if is_default r
              then (fun (_ : string * string) r =>
                      (Route.outLinkName r, Route.family r)) v r
              else v).
    by rewrite fold_left_filter, Hnone. }
  rewrite Hscan, by_gateway_collect_scan.
  assert (Hempty : List.filter (address_selected floatingIP "" "")
                     (Node.addresses n) = []).
  { induction (Node.addresses n) as [|a l IH]; [reflexivity|].
    cbn. destruct (address_selected floatingIP "" "" a) eqn:Ha.
    - apply address_selected_iff in Ha as [Hlink _].
      exfalso. apply (Hnamed a); [by left | exact Hlink].
    - apply IH. intros b Hb. apply Hnamed. by right. }
  by rewrite Hempty.
Qed.

Lemma default_addresses_no_default_route_witness :
  default_addresses_by_gateway (Some "192.168.100.10") (live node_isolated)
  = Ok "[]".
Proof.
  apply (default_addresses_no_default_route _ node_isolated).
  - reflexivity.
  - intros a [<-|[<-|[]]]; discriminate.
Defined.

Lemma link_selector_scan_live (n : Node.t) (rs : list Route.t) :
  (link_selector_scan (live n) rs = Ok ""
   /\ forall r : Route.t,
        In r rs -> is_default r = true ->
        forall l : Link.t,
          In l (Node.links n) -> Link.id l <> Route.outLinkName r)
  \/ exists (r : Route.t) (link : Link.t),
       In r rs /\ is_default r = true
       /\ In link (Node.links n) /\ Link.id link = Route.outLinkName r
       /\ link_selector_scan (live n) rs = Ok (selector_text link).
Proof.
  induction rs as [|r rs IH]; [left; split; [reflexivity | intros ? []]|].
  cbn [link_selector_scan].
  destruct (is_default r) eqn:Hr.
  - cbn [live lookup_link bind].
    destruct (List.find (fun l => String.eqb (Link.id l) (Route.outLinkName r))
                (Node.links n)) as [link|] eqn:Hfind.
    + right. exists r, link. apply List.find_some in Hfind as [Hin Hid].
      apply String.eqb_eq in Hid. repeat split; try done. by left.
    + destruct IH as [[Hempty Hnone]|(r' & link & Hin & Hrest)].
      * left. split; [exact Hempty|]. intros r' [<-|Hin] Hr' l Hl.
        -- apply String.eqb_neq.
           exact (List.find_none _ _ Hfind l Hl).
        -- by apply (Hnone r').
      * right. exists r', link. split; [by right | exact Hrest].
  - destruct IH as [[Hempty Hnone]|(r' & link & Hin & Hrest)].
    + left. split; [exact Hempty|]. intros r' [<-|Hin] Hr' l Hl.
      * congruence.
      * by apply (Hnone r').
    + right. exists r', link. split; [by right | exact Hrest].
Qed.

(** X4: the link selector renders either nothing, and then no default
    route of the node names a link the node has, or the hardware address
    and the driver of a link of the node that a default route names. *)
Theorem default_link_selector_cases (n : Node.t) :
  (default_link_selector_by_gateway (live n) = Ok ""
   /\ forall r : Route.t,
        In r (Node.routes n) -> is_default r = true ->
        forall l : Link.t,
          In l (Node.links n) -> Link.id l <> Route.outLinkName r)
  \/ exists (r : Route.t) (link : Link.t),
       In r (Node.routes n) /\ is_default r = true
       /\ In link (Node.links n) /\ Link.id link = Route.outLinkName r
       /\ default_link_selector_by_gateway (live n) = Ok (selector_text link).
Proof. exact (link_selector_scan_live n (Node.routes n)). Qed.

(** ** The inventories *)

Lemma fold_left_skip {A B} (p : B -> bool) (f : A -> B -> A) (l : list B)
    (a : A) :
  (forall acc x, p x = false -> f acc x = acc) ->
  fold_left f l a = fold_left f (List.filter p l) a.
Proof.
  intros Hskip. revert a. induction l as [|x l IH]; intros a; [reflexivity|].
  cbn. destruct (p x) eqn:Hp; cbn; [apply IH|].
  rewrite (Hskip a x Hp). apply IH.
Qed.

Lemma filter_idem {A} (p : A -> bool) (l : list A) :
  List.filter p (List.filter p l) = List.filter p l.
Proof.
  induction l as [|x l IH]; [reflexivity|].
  cbn. destruct (p x) eqn:Hp; [|exact IH]. cbn. by rewrite Hp, IH.
Qed.

(** X5: the physical links inventory lists a link only if it has a bus
    path and an ethernet name (eno, eth, enp, enx, ens): the other links
    of the node leave no trace in it, and without such a link it is the
    heading alone. *)
Theorem physical_links_info_filter (n : Node.t) :
  physical_links_info (live n) =
    physical_links_info
      (live (with_links n (List.filter physical (Node.links n))))
  /\ (List.filter physical (Node.links n) = [] ->
      physical_links_info (live n) = Ok (NL +:+ "# -- Discovered interfaces:")).
Proof.
  assert (Hskip : forall (acc : string) (l : Link.t),
             physical l = false -> acc +:+ physical_link_info l = acc).
  { intros acc l Hl. unfold physical_link_info.
    unfold physical in Hl. rewrite Hl. apply append_nil_r. }
  unfold physical_links_info. cbn. split.
  - f_equal.
    rewrite (fold_left_skip physical _ (Node.links n) _ Hskip).
    rewrite (fold_left_skip physical _ (List.filter physical (Node.links n))
               _ Hskip).
    by rewrite filter_idem.
  - intros Hnone. by rewrite (fold_left_skip physical _ _ _ Hskip), Hnone.
Qed.

Lemma physical_links_info_filter_witness :
  physical_links_info (live (with_links node_single []))
  = Ok (NL +:+ "# -- Discovered interfaces:").
Proof.
  apply (proj2 (physical_links_info_filter (with_links node_single []))).
  reflexivity.
Defined.

(** X6: the disks inventory leaves out every disk whose device name
    starts with /dev/zd (the ZFS volumes): it is the inventory of the
    other disks. *)
Theorem disks_info_skips_zvols (Disks : list Disk) :
  disks_info Disks =
    disks_info (List.filter (fun d => negb (zvol (device_name d))) Disks).
Proof.
  assert (Hskip : forall (acc : string) (d : Disk),
             negb (zvol (device_name d)) = false -> acc +:+ disk_info d = acc).
  { intros acc d Hd. unfold disk_info. rewrite Hd. apply append_nil_r. }
  unfold disks_info.
  rewrite (fold_left_skip _ _ Disks _ Hskip).
  rewrite (fold_left_skip _ _ (List.filter _ Disks) _ Hskip).
  by rewrite filter_idem.
Qed.

Lemma uint_printable (u : Decimal.uint) :
  printable (NilEmpty.string_of_uint u) = true.
Proof. induction u; cbn; by rewrite ?IHu. Qed.

Lemma decimal_printable (n : Z) : printable (decimal n) = true.
Proof.
  unfold decimal, NilZero.string_of_uint.
  destruct (N.to_uint (Z.to_N n)) eqn:Hu; try reflexivity;
    rewrite <- Hu; apply uint_printable.
Qed.

Lemma is_digit_printable (c : ascii) :
  is_digit c -> (32 <=? N_of_ascii c)%N = true.
Proof. unfold is_digit. intros Hc. apply N.leb_le. lia. Qed.

Lemma printf_2f_printable (x : Q) : printable (printf_2f x) = true.
Proof.
  unfold printf_2f. set (h := round_half_even _ _).
  rewrite !printable_app, decimal_printable. cbn.
  rewrite !is_digit_printable.
  - by destruct (Qnum x <? 0).
  - apply digit_is_digit. pose proof (Z.mod_pos_bound h 10 ltac:(lia)). lia.
  - apply digit_is_digit.
    pose proof (Z.mod_pos_bound h 100 ltac:(lia)).
    split; [apply Z.div_pos; lia | apply Z.lt_succ_r, Z.div_lt_upper_bound; lia].
Qed.

Lemma human_size_printable (bytes : Z) : printable (human_size bytes) = true.
Proof.
  unfold human_size.
  destruct (bytes <? 1048576); [|destruct (bytes <? 1073741824)];
    by rewrite printable_app, printf_2f_printable.
Qed.

Lemma block_app (l l' : list string) : block (l ++ l') = block l +:+ block l'.
Proof.
  induction l as [|x l IH]; [reflexivity|].
  cbn [block fold_right List.app] in *. fold (block (l ++ l')). fold (block l).
  by rewrite IH, !append_assoc.
Qed.

Lemma fold_left_block {A} (text : A -> string) (lines : A -> list string)
    (items : list A) (start : list string) :
  (forall x, In x items -> text x = block (lines x)) ->
  fold_left (fun out x => out +:+ text x) items (block start) =
  block (start ++ concat (map lines items)).
Proof.
  revert start. induction items as [|x items IH]; intros start Htext.
  - cbn. by rewrite app_nil_r.
  - cbn [fold_left map concat].
    rewrite (Htext x) by (by left). rewrite <- block_app.
    rewrite IH by (intros y Hy; apply Htext; by right).
    by rewrite <- app_assoc.
Qed.

(** The lines of a disk and of a link in the inventories. *)
Lemma disk_info_block (d : Disk) :
  disk_info d =
    block (if negb (zvol (device_name d)) then
             [ " " +:+ device_name d +:+ ":";
               "    model: " +:+ model d;
               "    serial: " +:+ serial d;
               "    wwid: " +:+ wwid d;
               "    size: " +:+ human_size (size d) ]
           else []).
Proof.
  unfold disk_info. destruct (negb (zvol (device_name d))); [|reflexivity].
  unfold block. cbn [fold_right]. by rewrite !append_assoc, append_nil_r.
Qed.

Lemma physical_link_info_block (l : Link.t) :
  physical_link_info l =
    block (if physical l then
             [ " enx" +:+ remove_byte ":" (Link.hardwareAddr l) +:+ ":";
               "   id: " +:+ Link.id l;
               "   hardwareAddr:" +:+ Link.hardwareAddr l;
               "   busPath: " +:+ Link.busPath l;
               "   driver: " +:+ Link.driver l;
               "   vendor: " +:+ Link.vendor l;
               "   product: " +:+ Link.product l +:+ ")" ]
           else []).
Proof.
  unfold physical_link_info, physical.
  destruct (negb _ && _); [|reflexivity].
  unfold block. cbn [fold_right]. by rewrite !append_assoc, append_nil_r.
Qed.

Lemma remove_byte_printable (c : ascii) (s : string) :
  printable s = true -> printable (remove_byte c s) = true.
Proof.
  induction s as [|a s IH]; [done|]. cbn.
  intros [Ha Hs]%andb_true_iff. destruct (Ascii.eqb a c); [by apply IH|].
  cbn. by rewrite Ha, IH.
Qed.

(** X7: when the fields of the disks and of the links hold no control
    byte, the two inventories are made of comment lines only: each line
    starts with the comment sign and goes to the next line break, so
    including an inventory in a configuration adds nothing to it but
    comments. *)
Theorem inventories_are_comments (Disks : list Disk) (n : Node.t) :
  ((forall d : Disk, In d Disks -> disk_printable d) ->
   exists lines : list string,
     disks_info Disks = block lines /\ no_control lines)
  /\ ((forall l : Link.t, In l (Node.links n) -> link_printable l) ->
      exists lines : list string,
        physical_links_info (live n) = Ok (block lines) /\ no_control lines).
Proof.
  split.
  - intros Hdisks. eexists. split.
    + unfold disks_info.
      change (NL +:+ "# -- Discovered disks:")
        with (block [" -- Discovered disks:"]).
      apply fold_left_block. intros d _. apply disk_info_block.
    + apply List.Forall_app. split; [by repeat constructor|].
      apply List.Forall_concat, List.Forall_map, List.Forall_forall.
      intros d Hd. destruct (Hdisks d Hd) as (Hname & Hmodel & Hserial & Hwwid).
      destruct (negb (zvol (device_name d))); [|constructor].
      repeat constructor; rewrite !printable_app;
        rewrite ?Hname, ?Hmodel, ?Hserial, ?Hwwid, ?human_size_printable;
        reflexivity.
  - intros Hlinks. eexists. split.
    + unfold physical_links_info. cbn [live lookup_links bind]. f_equal.
      change (NL +:+ "# -- Discovered interfaces:")
        with (block [" -- Discovered interfaces:"]).
      apply fold_left_block. intros l _. apply physical_link_info_block.
    + apply List.Forall_app. split; [by repeat constructor|].
      apply List.Forall_concat, List.Forall_map, List.Forall_forall.
      intros l Hl.
      destruct (Hlinks l Hl) as (Hid & Hhw & Hbus & Hdrv & Hven & Hprod).
      destruct (physical l); [|constructor].
      repeat constructor; rewrite !printable_app;
        rewrite ?Hid, ?Hhw, ?Hbus, ?Hdrv, ?Hven, ?Hprod,
          ?(remove_byte_printable _ _ Hhw);
        reflexivity.
Qed.

Lemma inventories_are_comments_witness :
  (exists lines : list string,
     disks_info [sda; zd0; sdc] = block lines /\ no_control lines)
  /\ exists lines : list string,
       physical_links_info (live node_single) = Ok (block lines)
       /\ no_control lines.
Proof.
  split.
  - apply (proj1 (inventories_are_comments [sda; zd0; sdc] node_single)).
    intros d [<-|[<-|[<-|[]]]]; by repeat split.
  - apply (proj2 (inventories_are_comments [] node_single)).
    intros l [<-|[<-|[]]]; by repeat split.
Defined.

(** ** Sizes below a unit *)

Lemma round_half_even_below (n : Z) (d : positive) :
  0 <= n < Z.pos d -> 0 <= round_half_even (n * 100) d <= 100.
Proof.
  intros [Hlo Hhi]. unfold round_half_even.
  assert (Hq : 0 <= n * 100 / Z.pos d < 100).
  { split; [apply Z.div_pos; lia | apply Z.div_lt_upper_bound; lia]. }
  repeat case_match; lia.
Qed.

Lemma printf_2f_below_one (n : Z) (d : positive) (unit : string) :
  0 <= n < Z.pos d ->
  at_most_one unit (printf_2f (divf n d) +:+ " " +:+ unit).
Proof.
  intros Hn. pose proof (round_half_even_below n d Hn) as Hh.
  unfold printf_2f, divf. cbn [Qnum Qden].
  rewrite (Z.abs_eq n) by lia.
  destruct (Z.ltb_spec n 0) as [Hneg|_]; [lia|].
  remember (round_half_even (n * 100) d) as h eqn:Eh. clear Eh.
  destruct (Z.eq_dec h 100) as [->|Hne].
  - right. reflexivity.
  - left. exists (digit (h / 10)), (digit (h mod 10)).
    split; [|split].
    + apply digit_is_digit.
      split; [apply Z.div_pos; lia | apply Z.lt_succ_r, Z.div_lt_upper_bound; lia].
    + apply digit_is_digit. pose proof (Z.mod_pos_bound h 10 ltac:(lia)). lia.
    + rewrite (Z.div_small h 100), (Z.mod_small h 100) by lia.
      by rewrite !append_assoc.
Qed.

(** X8: the unit is one step above the size.  A byte count from 0 and
    below 2^20 is printed as a fraction of a MB, one from 2^20 and below
    2^30 as a fraction of a GB, one from 2^30 and below 2^40 as a
    fraction of a TB: the number printed is 0.dd, or 1.00 when the
    fraction rounds up to it; it never exceeds 1.00 below 2^40. *)
Theorem human_size_fraction (bytes : Z) :
  (0 <= bytes < 2 ^ 20 -> at_most_one "MB" (human_size bytes))
  /\ (2 ^ 20 <= bytes < 2 ^ 30 -> at_most_one "GB" (human_size bytes))
  /\ (2 ^ 30 <= bytes < 2 ^ 40 -> at_most_one "TB" (human_size bytes)).
Proof.
  change (2 ^ 20) with 1048576. change (2 ^ 30) with 1073741824.
  change (2 ^ 40) with 1099511627776.
  split; [|split]; intros Hb.
  - rewrite human_size_MB by lia.
    apply (printf_2f_below_one bytes 1048576 "MB"). lia.
  - rewrite human_size_GB by lia.
    apply (printf_2f_below_one bytes 1073741824 "GB"). lia.
  - rewrite human_size_TB by lia.
    apply (printf_2f_below_one bytes 1099511627776 "TB"). lia.
Qed.

Lemma human_size_fraction_witness :
  at_most_one "MB" (human_size 524288)
  /\ at_most_one "GB" (human_size 536870912)
  /\ at_most_one "TB" (human_size 500107862016).
Proof.
  split; [|split].
  - apply (proj1 (human_size_fraction 524288)). lia.
  - apply (proj1 (proj2 (human_size_fraction 536870912))). lia.
  - apply (proj2 (proj2 (human_size_fraction 500107862016))). lia.
Defined.

Example human_size_half_GB : human_size 536870912 = "0.50 GB".
Proof. reflexivity. Qed.

(** ** The system disk *)

Lemma system_disk_scan_member (Disks : list Disk) (disk : string) :
  fold_left system_disk_step Disks disk = disk
  \/ In (fold_left system_disk_step Disks disk) (map device_name Disks).
Proof.
  revert disk. induction Disks as [|d Disks IH]; intros disk; [by left|].
  cbn [fold_left map]. destruct (IH (system_disk_step disk d)) as [->|Hin].
  - unfold system_disk_step.
    destruct (system_disk d); [right; by left|].
    destruct (String.eqb disk ""); [right; by left | by left].
  - right. by right.
Qed.

(** X9: the system disk helper never makes up a name.  On the empty list
    it gives the empty text, on any other list the device name of one of
    the disks; and when exactly one disk is flagged and the disks have a
    device name, it gives the name of that disk wherever it stands in
    the list. *)
Theorem system_disk_name_of_the_list (Disks : list Disk) :
  system_disk_name [] = ""
  /\ (Disks <> [] -> In (system_disk_name Disks) (map device_name Disks))
  /\ (forall d : Disk,
        List.Forall named Disks ->
        List.filter system_disk Disks = [d] ->
        system_disk_name Disks = device_name d).
Proof.
  split; [reflexivity|]. split.
  - destruct Disks as [|d0 rest]; [done|]. intros _.
    unfold system_disk_name. cbn [fold_left map].
    assert (Hfirst : system_disk_step "" d0 = device_name d0).
    { unfold system_disk_step. cbn. by destruct (system_disk d0). }
    rewrite Hfirst.
    destruct (system_disk_scan_member rest (device_name d0)) as [->|Hin];
      [by left | by right].
  - intros d Hall Hone.
    destruct Disks as [|d0 rest]; [discriminate Hone|].
    apply List.Forall_cons_iff in Hall as [H0 Hrest].
    unfold system_disk_name. cbn [fold_left].
    assert (Hfirst : system_disk_step "" d0 = device_name d0).
    { unfold system_disk_step. cbn. by destruct (system_disk d0). }
    rewrite Hfirst.
    destruct (system_disk_scan rest (device_name d0) Hrest H0) as [-> _].
    pose proof (find_rev_filter_last system_disk (d0 :: rest) [] d Hone)
      as Hlast.
    cbn [rev] in Hlast. rewrite find_app in Hlast.
    destruct (List.find system_disk (rev rest)) as [d'|].
    + by injection Hlast as ->.
    + cbn in Hlast. destruct (system_disk d0); [by injection Hlast as -> | done].
Qed.

Lemma system_disk_name_of_the_list_witness :
  In (system_disk_name [sdc; sda]) (map device_name [sdc; sda])
  /\ system_disk_name [sdc; sda; sdc] = "/dev/sda".
Proof.
  split.
  - apply (proj1 (proj2 (system_disk_name_of_the_list [sdc; sda]))).
    discriminate.
  - apply (proj2 (proj2 (system_disk_name_of_the_list [sdc; sda; sdc])) sda).
    + repeat constructor; discriminate.
    + reflexivity.
Defined.

(** ** The JSON the helpers render *)

(** X10: the three helpers that render a JSON list render it on one
    line: whatever the lookups answer and whatever bytes the answers
    hold, a result has no control byte, so no line break. *)
Theorem json_helpers_one_line (floatingIP : option string) (P : Provider)
    (s : string) :
  (default_addresses_by_gateway floatingIP P = Ok s -> printable s = true)
  /\ (default_addresses P = Ok s -> printable s = true)
  /\ (default_resolvers P = Ok s -> printable s = true).
Proof.
  unfold default_addresses_by_gateway, default_addresses, default_resolvers.
  split; [|split].
  - destruct (lookup_routes P) as [rs|e]; [|discriminate]. cbn.
    destruct (fold_left by_gateway_step rs ("", "")) as [link family].
    destruct (lookup_addresses P) as [items|e]; [|discriminate]. cbn.
    intros [= <-]. apply (encode_printable (Some _)).
  - destruct (lookup_nodeaddress P) as [[l|]|e]; cbn; try discriminate;
      intros [= <-]; [apply (encode_printable (Some l)) | reflexivity].
  - destruct (lookup_resolvers P) as [[l|]|e]; cbn; try discriminate;
      intros [= <-]; [apply (encode_printable (Some l)) | reflexivity].
Qed.

Lemma json_helpers_one_line_witness :
  printable ("[" +:+ GoJson.quote "192.168.100.11/24" +:+ "]") = true.
Proof.
  apply (proj1 (json_helpers_one_line (Some "192.168.100.10")
                  (live node_single) _)).
  reflexivity.
Defined.

(** ** What [template] prints *)

(** X11: [template] prints all or nothing.  Either the render succeeds
    and the output is the modeline, a line break and the render, with no
    error; or the render fails and nothing is printed, the error being
    the error of the render under "failed to render templates".  The
    error branch of the modeline is never taken. *)
Theorem template_all_or_nothing (Client : Type)
    (Render : option Client -> TemplateCmd.Options -> result string)
    (G : TemplateCmd.GlobalArgs) (RootDir : string)
    (flags : TemplateCmd.Flags) (args : GoJson.slice) (c : option Client) :
  (exists docs : string,
      Render c (TemplateCmd.opts RootDir flags) = Ok docs
      /\ TemplateCmd.template Client Render G RootDir flags args c =
           ("# talm: nodes=" +:+ GoJson.encode (TemplateCmd.Nodes G)
            +:+ ", endpoints=" +:+ GoJson.encode (TemplateCmd.Endpoints G)
            +:+ ", templates=" +:+ GoJson.encode args
            +:+ NL +:+ docs, None))
  \/ (exists e : error,
        Render c (TemplateCmd.opts RootDir flags) = Err e
        /\ TemplateCmd.template Client Render G RootDir flags args c =
             ("", Some (Errorf "failed to render templates" e))).
Proof.
  unfold TemplateCmd.template.
  destruct (Render c (TemplateCmd.opts RootDir flags)) as [docs|e].
  - left. exists docs. split; [reflexivity|]. cbn.
    by rewrite !append_assoc.
  - right. by exists e.
Qed.

(** ** Writing a file *)

(** X12: [writeToDestination] past the check.  For a destination that
    does not exist the force flag changes nothing.  When the check
    passes: if the directory cannot be created the error is returned
    under "failed to create output dir" and the file is not written; if
    it can, the file is written and the line "Created <destination>"
    goes to the standard error whether the write returned an error or
    not, the result being that of the write. *)
Theorem writeToDestination_cases {W : Type} `{OS W} (force : bool)
    (filepath_Dir : string -> string) (data destination : string)
    (permissions : N) (w : W) :
  (Stat w destination = false ->
   writeToDestination false filepath_Dir data destination permissions w =
   writeToDestination true filepath_Dir data destination permissions w)
  /\ (force = true \/ Stat w destination = false ->
      forall (w1 : W) (e : error),
        MkdirAll (filepath_Dir destination) ModePerm w = (w1, Some e) ->
        writeToDestination force filepath_Dir data destination permissions w =
        (w1, Some (Errorf "failed to create output dir" e)))
  /\ (force = true \/ Stat w destination = false ->
      forall (w1 w2 : W) (e : option error),
        MkdirAll (filepath_Dir destination) ModePerm w = (w1, None) ->
        WriteFile destination data permissions w1 = (w2, e) ->
        writeToDestination force filepath_Dir data destination permissions w =
        (Stderr ("Created " +:+ destination +:+ NL) w2, e)).
Proof.
  assert (Hpass : force = true \/ Stat w destination = false ->
                  validateFileExists force destination w = None).
  { unfold validateFileExists. intros [->| ->]; [reflexivity|].
    by destruct force. }
  split; [|split].
  - intros Hnew. unfold writeToDestination, validateFileExists. cbn.
    by rewrite Hnew.
  - intros Hgate w1 e Hmk. unfold writeToDestination.
    by rewrite (Hpass Hgate), Hmk.
  - intros Hgate w1 w2 e Hmk Hwr. unfold writeToDestination.
    by rewrite (Hpass Hgate), Hmk, Hwr.
Qed.

Lemma writeToDestination_cases_witness :
  writeToDestination false dir_dot "a: 1" "./values.yaml" 420 project =
  writeToDestination true dir_dot "a: 1" "./values.yaml" 420 project.
Proof.
  apply (proj1 (writeToDestination_cases false dir_dot "a: 1" "./values.yaml"
                  420 project)).
  vm_compute. reflexivity.
Defined.

(** X13: [writeSecretsBundleToFile] writes the marshalled bundle with
    [writeToDestination]; its own check of the file adds nothing to the
    check made there.  So without the force flag an existing
    secrets.yaml is never written over: the call returns the "already
    exists" error and leaves the system as it was. *)
Theorem writeSecretsBundleToFile_keeps_secrets {W : Type} `{OS W}
    (force : bool) (filepath_Dir : string -> string)
    (filepath_Join : list string -> string) (RootDir : string)
    (Bundle : Type) (yaml_Marshal : Bundle -> result string)
    (bundle : Bundle) (w : W) :
  let secretsFile := filepath_Join [RootDir; "secrets.yaml"] in
  writeSecretsBundleToFile force filepath_Dir filepath_Join RootDir
    Bundle yaml_Marshal bundle w =
    match yaml_Marshal bundle with
    | Err err => (w, Some err)
    | Ok bundleBytes =>
        writeToDestination force filepath_Dir bundleBytes secretsFile 420 w
    end
  /\ (force = false -> Stat w secretsFile = true ->
      forall bundleBytes : string,
        yaml_Marshal bundle = Ok bundleBytes ->
        writeSecretsBundleToFile force filepath_Dir filepath_Join RootDir
          Bundle yaml_Marshal bundle w = (w, Some (AlreadyExists secretsFile))).
Proof.
  intros secretsFile. unfold writeSecretsBundleToFile, writeToDestination.
  fold secretsFile. split.
  - destruct (yaml_Marshal bundle) as [bytes|e]; [|reflexivity].
    by destruct (validateFileExists force secretsFile w).
  - intros -> Hexists bytes ->. unfold validateFileExists. cbn.
    by rewrite Hexists.
Qed.

Lemma writeSecretsBundleToFile_keeps_secrets_witness :
  writeSecretsBundleToFile false dir_dot join_slash "." string marshal_text
    "cluster: {}" project_with_secrets
  = (project_with_secrets, Some (AlreadyExists "./secrets.yaml")).
Proof.
  assert (Hexists : Stat project_with_secrets "./secrets.yaml" = true)
    by (vm_compute; reflexivity).
  exact (proj2 (writeSecretsBundleToFile_keeps_secrets false dir_dot join_slash
                  "." string marshal_text "cluster: {}" project_with_secrets)
           eq_refl Hexists "cluster: {}" eq_refl).
Defined.

(** ** The presets *)

Lemma writePreset_filter {W : Type} `{OS W} (force : bool)
    (filepath_Dir : string -> string) (filepath_Join : list string -> string)
    (Sprintf : string -> string -> string -> string)
    (RootDir Version presetName clusterName : string)
    (entries : list (string * string)) (err : option error) (w : W) :
  writePreset force filepath_Dir filepath_Join Sprintf RootDir Version
    presetName clusterName entries err w =
  writePreset force filepath_Dir filepath_Join Sprintf RootDir Version
    presetName clusterName (List.filter (in_preset presetName) entries) err w.
Proof.
  revert err w. induction entries as [|[path content] rest IH]; intros err w;
    [reflexivity|].
  cbn [writePreset List.filter]. unfold in_preset at 1. cbn [fst].
  destruct (String.eqb (List.hd "" (SplitN2 "/" path)) presetName) eqn:Hp;
    [|apply IH].
  cbn [writePreset]. rewrite Hp.
  destruct (if String.eqb (List.last (SplitN2 "/" path) "") "Chart.yaml"
            then _ else _) as [w' [e|]]; [reflexivity | apply IH].
Qed.

(** X14: [init] takes exactly the presets generic and cozystack, generic
    when no argument names one.  The loop over the preset files, in any
    order, is the loop over the files of the chosen preset, which are
    the same five for both presets.  The third chart of the preset
    files, talm, which holds the helper templates, is not a preset: its
    files are written for no accepted argument. *)
Theorem init_presets :
  (forall preset : string,
      isValidPreset preset = true <-> preset = "generic" \/ preset = "cozystack")
  /\ isValidPreset (presetName_of []) = true
  /\ (forall preset : string,
        isValidPreset preset = true ->
        map (fun path => List.tl (SplitN2 "/" path))
          (List.filter (fun path => in_preset preset (path, "")) preset_paths)
        = preset_layout)
  /\ (forall {W : Type} `{OS W} (force : bool)
        (filepath_Dir : string -> string)
        (filepath_Join : list string -> string)
        (Sprintf : string -> string -> string -> string)
        (RootDir Version presetName clusterName : string)
        (entries : list (string * string)) (w : W),
        writePreset force filepath_Dir filepath_Join Sprintf RootDir Version
          presetName clusterName entries None w =
        writePreset force filepath_Dir filepath_Join Sprintf RootDir Version
          presetName clusterName
          (List.filter (in_preset presetName) entries) None w)
  /\ isValidPreset "talm" = false
  /\ In "talm/templates/_helpers.tpl" preset_paths.
Proof.
  assert (Hvalid : forall preset : string,
             isValidPreset preset = true <->
             preset = "generic" \/ preset = "cozystack").
  { intros preset. unfold isValidPreset, AvailablePresets. cbn.
    destruct (String.eqb_spec preset "generic");
      destruct (String.eqb_spec preset "cozystack"); intuition congruence. }
  split; [exact Hvalid|]. split; [reflexivity|]. split.
  - intros preset [-> | ->]%Hvalid; reflexivity.
  - split; [|split; [reflexivity | cbn; tauto]].
    intros W HW force Dir Join Sprintf RootDir Version presetName clusterName
      entries w.
    apply writePreset_filter.
Qed.

Lemma init_presets_witness :
  map (fun path => List.tl (SplitN2 "/" path))
    (List.filter (fun path => in_preset "cozystack" (path, "")) preset_paths)
  = preset_layout.
Proof.
  apply (proj1 (proj2 (proj2 init_presets)) "cozystack"). reflexivity.
Defined.

#[export] Instance MemOS_framed : FramedOS MemFS.
Proof.
  split.
  - intros p d m w w' e q [= <- _] Hq. cbn. by apply lookup_insert_ne.
  - by intros d m w w' e q [= <- _].
Qed.

Lemma writeToDestination_frame {W : Type} `{LawfulOS W} `{!FramedOS W}
    (force : bool) (filepath_Dir : string -> string)
    (data destination : string) (permissions : N) (w : W) (q : string) :
  q <> destination ->
  ReadFile (writeToDestination force filepath_Dir data destination
              permissions w).1 q
  = ReadFile w q.
Proof.
  intros Hq. unfold writeToDestination.
  destruct (validateFileExists force destination w); [reflexivity|].
  destruct (MkdirAll (filepath_Dir destination) ModePerm w) as [w1 e1] eqn:Hmk.
  pose proof (MkdirAll_ReadFile _ _ _ _ _ q Hmk) as Hmk'.
  destruct e1 as [e1|]; [exact Hmk'|].
  destruct (WriteFile destination data permissions w1) as [w2 e2] eqn:Hwr.
  cbn. rewrite Stderr_ReadFile, (WriteFile_other _ _ _ _ _ _ q Hwr Hq).
  exact Hmk'.
Qed.

Lemma writeToDestination_written {W : Type} `{LawfulOS W}
    (force : bool) (filepath_Dir : string -> string)
    (data destination : string) (permissions : N) (w w' : W) :
  writeToDestination force filepath_Dir data destination permissions w
  = (w', None) ->
  ReadFile w' destination = Some data.
Proof.
  unfold writeToDestination.
  destruct (validateFileExists force destination w); [discriminate|].
  destruct (MkdirAll (filepath_Dir destination) ModePerm w) as [w1 [e1|]];
    [discriminate|].
  destruct (WriteFile destination data permissions w1) as [w2 e2] eqn:Hwr.
  intros [= <- ->]. rewrite Stderr_ReadFile.
  exact (WriteFile_ReadFile _ _ _ _ _ Hwr).
Qed.

(** X15: the loop that writes the preset changes no file but the ones it
    writes to: a file that is not the destination of an entry of the
    preset reads the same after the loop as before, whether the loop
    ends with an error or not. *)
Theorem writePreset_frame {W : Type} `{LawfulOS W} `{!FramedOS W}
    (force : bool) (filepath_Dir : string -> string)
    (filepath_Join : list string -> string)
    (Sprintf : string -> string -> string -> string)
    (RootDir Version presetName clusterName : string)
    (entries : list (string * string)) (w : W) (q : string) :
  ~ In q (preset_targets filepath_Join RootDir presetName entries) ->
  ReadFile
    (writePreset force filepath_Dir filepath_Join Sprintf RootDir Version
       presetName clusterName entries None w).1 q
  = ReadFile w q.
Proof.
  generalize (@None error) as err.
  intros err. revert err w.
  induction entries as [|[path content] rest IH]; intros err w Hq;
    [reflexivity|].
  cbn [writePreset]. unfold preset_targets in Hq. cbn [List.filter] in Hq.
  unfold in_preset at 1 in Hq. cbn [fst] in Hq.
  destruct (String.eqb (List.hd "" (SplitN2 "/" path)) presetName);
    [|by apply IH].
  cbn [map] in Hq. fold (preset_file filepath_Join RootDir path).
  assert (Hne : q <> preset_file filepath_Join RootDir path)
    by (intros ->; apply Hq; by left).
  assert (Hrest : ~ In q (preset_targets filepath_Join RootDir presetName rest))
    by (intros Hin; apply Hq; by right).
  destruct (String.eqb (List.last (SplitN2 "/" path) "") "Chart.yaml").
  - pose proof (writeToDestination_frame force filepath_Dir
                  (Sprintf content clusterName Version)
                  (preset_file filepath_Join RootDir path) 420 w q Hne) as Hw.
    destruct (writeToDestination force filepath_Dir
                (Sprintf content clusterName Version) _ 420 w) as [w1 e1].
    cbn [fst] in *. destruct err as [e|]; [exact Hw|].
    rewrite IH by exact Hrest. exact Hw.
  - pose proof (writeToDestination_frame force filepath_Dir content
                  (preset_file filepath_Join RootDir path) 420 w q Hne) as Hw.
    destruct (writeToDestination force filepath_Dir content _ 420 w)
      as [w1 [e1|]]; cbn [fst] in *; [exact Hw|].
    rewrite IH by exact Hrest. exact Hw.
Qed.

Lemma writePreset_frame_witness :
  ReadFile
    (writePreset true dir_dot join_slash sprintf_plain "." "0.1.0" "generic"
       "talm" generic_preset None project_with_secrets).1 "./secrets.yaml"
  = ReadFile project_with_secrets "./secrets.yaml".
Proof.
  apply (writePreset_frame true dir_dot join_slash sprintf_plain "." "0.1.0"
           "generic" "talm" generic_preset project_with_secrets
           "./secrets.yaml").
  intros [Hin|[Hin|[]]]; discriminate Hin.
Defined.

(** X16: when the loop that writes the preset returns no error and the
    entries of the preset go to different files, every file of the
    preset other than Chart.yaml holds its content after the loop. *)
Theorem writePreset_written {W : Type} `{LawfulOS W} `{!FramedOS W}
    (force : bool) (filepath_Dir : string -> string)
    (filepath_Join : list string -> string)
    (Sprintf : string -> string -> string -> string)
    (RootDir Version presetName clusterName : string)
    (entries : list (string * string)) (w w' : W) :
  NoDup (preset_targets filepath_Join RootDir presetName entries) ->
  writePreset force filepath_Dir filepath_Join Sprintf RootDir Version
    presetName clusterName entries None w = (w', None) ->
  forall path content : string,
    In (path, content) entries ->
    of_preset presetName path -> ~ is_chart path ->
    ReadFile w' (preset_file filepath_Join RootDir path) = Some content.
Proof.
  revert w. induction entries as [|[p c] rest IH];
    intros w Hdup Hloop path content Hin Hpre Hchart; [destruct Hin|].
  cbn [writePreset] in Hloop. unfold preset_targets in Hdup.
  cbn [List.filter] in Hdup. unfold in_preset at 1 in Hdup. cbn [fst] in Hdup.
  destruct (String.eqb_spec (List.hd "" (SplitN2 "/" p)) presetName)
    as [Hp|Hp].
  - cbn [map] in Hdup. apply NoDup_cons in Hdup as [Hfresh Hdup].
    fold (preset_targets filepath_Join RootDir presetName rest) in Hfresh, Hdup.
    fold (preset_file filepath_Join RootDir p) in Hloop.
    destruct (String.eqb_spec (List.last (SplitN2 "/" p) "") "Chart.yaml")
      as [Hc|Hc].
    + destruct (writeToDestination force filepath_Dir
                  (Sprintf c clusterName Version) _ 420 w) as [w1 e1].
      cbn [fst] in Hloop. destruct Hin as [[= -> ->]|Hin]; [done|].
      exact (IH w1 Hdup Hloop path content Hin Hpre Hchart).
    + destruct (writeToDestination force filepath_Dir c _ 420 w)
        as [w1 [e1|]] eqn:Hw; [discriminate Hloop|].
      destruct Hin as [[= -> ->]|Hin].
      * replace w' with
          (writePreset force filepath_Dir filepath_Join Sprintf RootDir
             Version presetName clusterName rest None w1).1
          by (by rewrite Hloop).
        rewrite writePreset_frame
          by (intros Hin; apply Hfresh; by apply list_elem_of_In).
        exact (writeToDestination_written _ _ _ _ _ _ _ Hw).
      * exact (IH w1 Hdup Hloop path content Hin Hpre Hchart).
  - destruct Hin as [[= -> ->]|Hin]; [done|].
    exact (IH w Hdup Hloop path content Hin Hpre Hchart).
Qed.

Lemma writePreset_written_witness :
  ReadFile
    (writePreset true dir_dot join_slash sprintf_plain "." "0.1.0" "generic"
       "talm" generic_preset None empty_project).1 "./values.yaml"
  = Some "endpoint: https://192.168.100.10:6443".
Proof.
  apply (writePreset_written true dir_dot join_slash sprintf_plain "." "0.1.0"
           "generic" "talm" generic_preset empty_project _
           ltac:(vm_compute; repeat constructor; set_solver)
           ltac:(vm_compute; reflexivity)
           "generic/values.yaml").
  - right; right; by left.
  - reflexivity.
  - discriminate.
Defined.
